(** * Audio_cropper: the core of [app.py], embedded and verified

    The development follows [app.py] function by function:

    - [allowed_file], the upload filter;
    - [detect_switch_noise], the click detector;
    - [calculate_weighted_average_interval], the consensus aggregator;
    - [crop_and_split_audio], the segment splitter;
    - [upload_files] and [process_batch], the two request handlers that
      own the global [batch_data] and [spectrogram_cache].

    Conventions of the embedding.

    - Outside module [F64] a Python [float] is an exact rational ([Q]);
      infinities, NaN and binary rounding are outside that reading.
      What is stated in it is kept to equalities between runs,
      relations between the outputs and the values the code itself
      computes on the way, and inequalities with a margin that binary
      rounding does not reach.  The inputs on which a statement of the
      specification is shown to fail are dyadic rationals, on which
      binary floating point computes the same values.
    - Where the outcome depends on how a float rounds or overflows,
      which is the conversion [int(t * 1000)] of the splitter, a float
      is the machine's binary64 ([PrimFloat.float]): module [F64] holds
      the splitter and the batch handler in that reading, and
      [crop_f64_agrees] relates the two.
    - [None] is [Datatypes.None]; a Python pair of optional floats is
      [option Q * option Q].
    - A [try: ... except Exception] block is a computation in the
      [result] monad followed by a handler.
    - The libraries the program calls (OpenCV, librosa, pydub, werkzeug,
      the clock and the disk) are not part of the repository.  OpenCV and
      the decoders are interfaces ([Class]) over which every theorem is
      universally quantified; pydub's [AudioSegment] is the sequence of
      its millisecond units, which is the granularity at which [app.py]
      addresses it ([len], slices and [+] are all in milliseconds). *)

From Stdlib Require Import QArith Qround Qabs ZArith List String Ascii Bool Lia Lqa.
From Stdlib.Strings Require Import Byte.
From stdpp Require Import gmap strings.
From Stdlib Require Import PrimFloat FloatOps SpecFloat.
Import ListNotations.

Open Scope Q_scope.

(** ** Python built-ins on numbers *)

Module Py.

(** [a < b] on floats, as a boolean. *)
Definition ltb (a b : Q) : bool :=
  match Qcompare a b with Lt => true | _ => false end.

(** [min(a, b)]: the first argument unless the second is smaller. *)
Definition min (a b : Q) : Q := if ltb b a then b else a.

(** [max(a, b)]: the first argument unless the second is larger. *)
Definition max (a b : Q) : Q := if ltb a b then b else a.

(** [int(x)]: truncation toward zero. *)
Definition int (x : Q) : Z := Z.quot (Qnum x) (Z.pos (Qden x)).

(** Round to the nearest integer, ties to the even one; this is the
    rule of both [float.__round__] and [numpy.float64.__round__]. *)
Definition round_half_even (x : Q) : Z :=
  let f := Qfloor x in
  match Qcompare (x - inject_Z f) (1 # 2) with
  | Lt => f
  | Gt => (f + 1)%Z
  | Eq => if Z.even f then f else (f + 1)%Z
  end.

(** [round(x, 2)].  The result is kept in lowest terms. *)
Definition round2 (x : Q) : Q :=
  Qred (inject_Z (round_half_even (x * 100)) / 100).

End Py.

(** [np.mean] of a non-empty list of floats. *)
Definition np_sum (l : list Q) : Q := fold_right Qplus 0 l.

Definition np_mean (l : list Q) : Q :=
  np_sum l / inject_Z (Z.of_nat (length l)).

(** Two pairs of floats denote the same interval. *)
Definition same_interval (a b : Q * Q) : Prop :=
  fst a == fst b /\ snd a == snd b.

(** ** The consensus aggregator *)

(** A per-file detection as [upload_files] collects it: each bound is a
    float or [None]. *)
Definition interval : Type := option Q * option Q.

(** [calculate_weighted_average_interval(intervals)]. *)
Definition calculate_weighted_average_interval
    (intervals : list interval) : Q * Q :=
  match intervals with
  | [] => (5.5, 6.5)
  | _ =>
      (* [interval[0] for interval in intervals if interval[0] is not None] *)
      let starts := omap fst intervals in
      let ends := omap snd intervals in
      match starts, ends with
      | [], _ | _, [] => (5.5, 6.5)
      | _, _ => (Py.round2 (np_mean starts), Py.round2 (np_mean ends))
      end
  end.

(** An entry is valid when both of its bounds are present. *)
Definition valid_entry (i : interval) : bool :=
  match i with
  | (Some _, Some _) => true
  | _ => false
  end.

(** The entries that survive when every entry with a missing bound is
    dropped as a whole. *)
Definition discard_invalid (intervals : list interval) : list interval :=
  List.filter valid_entry intervals.

(** The reading under which an entry with a missing bound contributes
    nothing: aggregating is aggregating the surviving entries. *)
Definition discards_whole_entries (intervals : list interval) : Prop :=
  same_interval (calculate_weighted_average_interval intervals)
                (calculate_weighted_average_interval (discard_invalid intervals)).

(** The shape of what [detect_switch_noise] returns: both bounds or
    neither. *)
Definition detector_shaped (i : interval) : Prop :=
  match i with
  | (Some _, Some _) | (None, None) => True
  | _ => False
  end.



(** ** Exceptions and [try]/[except] *)

Inductive exn : Type :=
  | ValueError | IndexError | TypeError | OverflowError
  | FileNotFoundError | OSError
  | cv2_error | librosa_error | CouldntDecodeError | TooManyMissingFrames.

Inductive result (A : Type) : Type :=
  | Ok (a : A)
  | Raise (e : exn).

Arguments Ok {A} a.
Arguments Raise {A} e.

#[global] Instance result_ret : MRet result := fun A a => Ok a.

#[global] Instance result_bind : MBind result := fun A B f r =>
  match r with
  | Ok a => f a
  | Raise e => Raise e
  end.

Definition raised {A} (r : result A) : bool :=
  match r with
  | Ok _ => false
  | Raise _ => true
  end.

(** ** numpy on the time axis and the spectrogram *)

(** [mel_spec_db]: one row per mel band, one column per frame. *)
Definition spectrogram : Type := list (list Q).

(** [np.abs(time_frames - t)]. *)
Definition abs_diff (time_frames : list Q) (t : Q) : list Q :=
  map (fun x => Qabs (x - t)) time_frames.

(** The scan of [np.argmin]: the first index of the smallest value. *)
Fixpoint argmin_from (best_i : nat) (best : Q) (i : nat) (l : list Q) : nat :=
  match l with
  | [] => best_i
  | x :: l' =>
      if Py.ltb x best then argmin_from i x (S i) l'
      else argmin_from best_i best (S i) l'
  end.

(** [np.argmin(a)]; an empty array raises [ValueError]. *)
Definition np_argmin (a : list Q) : result nat :=
  match a with
  | [] => Raise ValueError
  | x :: l => Ok (argmin_from 0 x 1 l)
  end.

(** [a[lo:hi]] for [0 <= lo], [0 <= hi]: out-of-range bounds are clamped. *)
Definition py_slice {A} (lo hi : nat) (l : list A) : list A :=
  drop lo (take hi l).

(** [time_frames[i]] for an integer [i]: negative indices count from the
    end, anything out of range raises [IndexError]. *)
Definition np_index (a : list Q) (i : Z) : result Q :=
  let n := Z.of_nat (length a) in
  let j := if (i <? 0)%Z then (i + n)%Z else i in
  if ((0 <=? j) && (j <? n))%Z then
    match a !! Z.to_nat j with
    | Some v => Ok v
    | None => Raise IndexError
    end
  else Raise IndexError.

(** ** OpenCV, as [detect_switch_noise] calls it *)

Class OpenCV : Type := {
  image : Type;
  contour : Type;
  (** [cv2.normalize(roi, None, lo, hi, cv2.NORM_MINMAX, dtype=cv2.CV_8U)] *)
  normalize : spectrogram -> Z -> Z -> result image;
  (** [cv2.GaussianBlur(img, ksize, sigma)] *)
  GaussianBlur : image -> Z * Z -> Z -> result image;
  (** [cv2.threshold(img, thresh, maxval, THRESH_BINARY + THRESH_OTSU)] *)
  threshold : image -> Z -> Z -> result (Q * image);
  (** [cv2.getStructuringElement(cv2.MORPH_RECT, ksize)] *)
  getStructuringElement : Z * Z -> result image;
  (** [cv2.morphologyEx(img, cv2.MORPH_OPEN, kernel)] *)
  morphologyEx : image -> image -> result image;
  (** [cv2.findContours(img, RETR_EXTERNAL, CHAIN_APPROX_SIMPLE)[0]] *)
  findContours : image -> result (list contour);
  contourArea : contour -> result Q;
  (** [cv2.boundingRect(c)]: [(x, y, w, h)] *)
  boundingRect : contour -> result (Z * Z * Z * Z)
}.

Section Detector.

Context `{cv : OpenCV}.

(** The loop of [max(contours, key=cv2.contourArea)]: a later contour
    replaces the current one only when its key is strictly larger. *)
Fixpoint max_loop (best : contour) (best_key : Q) (l : list contour)
    : result contour :=
  match l with
  | [] => Ok best
  | c :: l' =>
      k ← contourArea c;
      if Py.ltb best_key k then max_loop c k l' else max_loop best best_key l'
  end.

Definition max_by_area (contours : list contour) : result contour :=
  match contours with
  | [] => Raise ValueError
  | c :: l =>
      k ← contourArea c;
      max_loop c k l
  end.

(** The body of the [try] block of [detect_switch_noise]. *)
Definition detect_body (mel_spec_db : spectrogram) (time_frames : list Q)
    (start_time end_time : Q) : result interval :=
  start_idx ← np_argmin (abs_diff time_frames start_time);
  end_idx ← np_argmin (abs_diff time_frames end_time);
  if (end_idx <=? start_idx)%nat then Ok (None, None)
  else
    let roi := map (py_slice start_idx end_idx) mel_spec_db in
    roi_normalized ← normalize roi 0 255;
    blurred ← GaussianBlur roi_normalized (5, 5)%Z 0;
    '(_, thresh) ← threshold blurred 0 255;
    kernel ← getStructuringElement (1, 10)%Z;
    vertical_structure ← morphologyEx thresh kernel;
    contours ← findContours vertical_structure;
    match contours with
    | [] => Ok (Some start_time, Some end_time)
    | _ =>
        largest_contour ← max_by_area contours;
        '(x, y, w, h) ← boundingRect largest_contour;
        detected_start ← np_index time_frames (Z.of_nat start_idx + x);
        detected_end ← np_index time_frames (Z.of_nat start_idx + x + w);
        let detected_start := Py.max 4.5 (Py.min detected_start 6.0) in
        let detected_end :=
          Py.max (detected_start + 0.5) (Py.min detected_end 7.5) in
        Ok (Some detected_start, Some detected_end)
    end.

(** [detect_switch_noise(mel_spec_db, time_frames, start_time, end_time)]:
    the body, with [except Exception] returning the coarse window. *)
Definition detect_switch_noise (mel_spec_db : spectrogram)
    (time_frames : list Q) (start_time end_time : Q) : interval :=
  match detect_body mel_spec_db time_frames start_time end_time with
  | Ok r => r
  | Raise _ => (Some start_time, Some end_time)
  end.

(** The two frame indices the detector resolves the window to. *)
Definition window_indices (time_frames : list Q) (start_time end_time : Q)
    : result (nat * nat) :=
  start_idx ← np_argmin (abs_diff time_frames start_time);
  end_idx ← np_argmin (abs_diff time_frames end_time);
  Ok (start_idx, end_idx).

(** The image operations of the body on their own, from [cv2.normalize]
    to [cv2.findContours]. *)
Definition image_ops (roi : spectrogram) : result (list contour) :=
  roi_normalized ← normalize roi 0 255;
  blurred ← GaussianBlur roi_normalized (5, 5)%Z 0;
  '(_, thresh) ← threshold blurred 0 255;
  kernel ← getStructuringElement (1, 10)%Z;
  vertical_structure ← morphologyEx thresh kernel;
  findContours vertical_structure.

End Detector.


(** A numeric answer that went through the clamping step. *)
Definition clamped (i : interval) : Prop :=
  match i with
  | (Some s, Some e) => 4.5 <= s /\ s <= 6.0 /\ s + 0.5 <= e /\ e <= 7.5
  | _ => False
  end.

(** ** Strings and paths *)

(** [s.endswith(suffix)]. *)
Definition endswith (s suffix : string) : bool :=
  let n := String.length s in
  let m := String.length suffix in
  (m <=? n)%nat && String.eqb (substring (n - m) m s) suffix.

(** [c in s] for a character [c]. *)
Fixpoint contains_char (c : ascii) (s : string) : bool :=
  match s with
  | EmptyString => false
  | String d s' => Ascii.eqb c d || contains_char c s'
  end.

(** [s.rsplit('.', 1)[1]] when [s] contains a dot: what follows the last
    dot. *)
Fixpoint after_last_dot (s : string) : option string :=
  match s with
  | EmptyString => None
  | String c s' =>
      match after_last_dot s' with
      | Some e => Some e
      | None => if Ascii.eqb c "." then Some s' else None
      end
  end.

Definition lower_char (c : ascii) : ascii :=
  let n := nat_of_ascii c in
  if ((65 <=? n) && (n <=? 90))%nat then ascii_of_nat (n + 32) else c.

(** [s.lower()] on ASCII text. *)
Fixpoint lower (s : string) : string :=
  match s with
  | EmptyString => EmptyString
  | String c s' => String (lower_char c) (lower s')
  end.

Definition ALLOWED_EXTENSIONS : list string := ["wav"; "mp3"; "flac"; "aac"]%string.

(** [allowed_file(filename)]. *)
Definition allowed_file (filename : string) : bool :=
  contains_char "." filename &&
  match after_last_dot filename with
  | Some ext => bool_decide (lower ext ∈ ALLOWED_EXTENSIONS)
  | None => false
  end.

(** [os.path.join(a, b)] for a directory [a] that is not empty and
    does not end in a separator, and a relative [b]: the shape of every
    call in [app.py], whose directories are [uploads],
    [temp_spectrograms], [output], [output/batch_<timestamp>] and the
    two below it. *)
Definition path_join (a b : string) : string := (a ++ "/" ++ b)%string.

(** The index of the last occurrence of [c] in [s], counting from [i]. *)
Fixpoint rfind_from (c : ascii) (s : string) (i : nat) : option nat :=
  match s with
  | EmptyString => None
  | String d s' =>
      match rfind_from c s' (S i) with
      | Some j => Some j
      | None => if Ascii.eqb c d then Some i else None
      end
  end.

(** Is some character of [s] at an index in [[lo, hi)] different from a dot? *)
Fixpoint has_non_dot (s : string) (lo hi : nat) : bool :=
  match s with
  | EmptyString => false
  | String d s' =>
      match hi with
      | O => false
      | S hi' =>
          match lo with
          | O => negb (Ascii.eqb d ".") || has_non_dot s' 0 hi'
          | S lo' => has_non_dot s' lo' hi'
          end
      end
  end.

(** [os.path.splitext(p)[0]]: the extension starts at the last dot,
    provided that dot comes after the last separator and is preceded, in
    the base name, by a character other than a dot. *)
Definition splitext_root (p : string) : string :=
  let name_start :=
    match rfind_from "/" p 0 with
    | Some i => S i
    | None => O
    end in
  match rfind_from "." p 0 with
  | Some dot =>
      if (name_start <=? dot)%nat && has_non_dot p name_start dot
      then substring 0 dot p else p
  | None => p
  end.

(** ** pydub *)

(** The content of one millisecond of audio; [0] is silence. *)
Definition ms_unit : Type := Z.

(** An [AudioSegment], seen through the interface [app.py] uses: a frame
    rate, and the audio as the sequence of its milliseconds. *)
Record AudioSegment : Type := {
  frame_rate : Z;
  units : list ms_unit
}.

Module Pydub.

(** [len(seg)]: the duration in milliseconds. *)
Definition len (seg : AudioSegment) : Z := Z.of_nat (length (units seg)).

(** [seg._spawn(data)]. *)
Definition spawn (seg : AudioSegment) (data : list ms_unit) : AudioSegment :=
  {| frame_rate := frame_rate seg; units := data |}.

(** [seg._parse_position(val)]. *)
Definition parse_position (seg : AudioSegment) (val : Z) : Z :=
  if (val <? 0)%Z then (len seg - Z.abs val)%Z else val.

(** [data[lo:hi]] on the raw data, with Python's treatment of negative
    and out-of-range indices. *)
Definition data_slice (data : list ms_unit) (lo hi : Z) : list ms_unit :=
  let n := Z.of_nat (length data) in
  let norm := fun i : Z =>
    if (i <? 0)%Z then Z.max 0 (i + n) else Z.min i n in
  py_slice (Z.to_nat (norm lo)) (Z.to_nat (norm hi)) data.

(** [seg[start:stop]] ([AudioSegment.__getitem__] on a slice without
    step): both bounds are capped at [len(seg)], the data is cut, and a
    result shorter than asked for is padded with silence, or refused
    when more than 2 ms are missing. *)
Definition getitem (seg : AudioSegment) (start stop : option Z)
    : result AudioSegment :=
  let start := default 0%Z start in
  let end_ := default (len seg) stop in
  let start := Z.min start (len seg) in
  let end_ := Z.min end_ (len seg) in
  let start := parse_position seg start in
  let end_ := parse_position seg end_ in
  let data := data_slice (units seg) start end_ in
  let expected_length := (end_ - start)%Z in
  let missing := (expected_length - Z.of_nat (length data))%Z in
  if (missing =? 0)%Z then Ok (spawn seg data)
  else if (2 <? missing)%Z then Raise TooManyMissingFrames
  else
    let silence := map (fun _ => 0%Z) (take 1 data) in
    Ok (spawn seg (data ++ mjoin (replicate (Z.to_nat missing) silence))).

(** [seg1 + seg2]: [append] with no crossfade. *)
Definition add (seg1 seg2 : AudioSegment) : AudioSegment :=
  spawn seg1 (units seg1 ++ units seg2).

End Pydub.

(** The content of a file on disk. *)
Definition bytes : Type := list Byte.byte.

(** The decoders and the encoder of pydub.  A decoder is given what is
    stored at the path, an encoder says whether it could write there. *)
Class Codec : Type := {
  from_mp3 : bytes -> result AudioSegment;
  from_wav : bytes -> result AudioSegment;
  export_wav : AudioSegment -> string -> result unit
}.

(** What the splitter leaves on disk under the output directory. *)
Record outputs : Type := {
  dirs : gset string;
  wavs : gmap string AudioSegment
}.

Definition no_outputs : outputs := {| dirs := ∅; wavs := ∅ |}.

Definition makedirs (d : string) (o : outputs) : outputs :=
  {| dirs := {[d]} ∪ dirs o; wavs := wavs o |}.

Section Splitter.

Context `{codec : Codec}.

(** Reading the file at a path of the disk [disk]. *)
Definition read_file (disk : gmap string bytes) (path : string) : result bytes :=
  match disk !! path with
  | Some b => Ok b
  | None => Raise FileNotFoundError
  end.

(** The [if]/[else] that picks the decoder. *)
Definition load_audio (disk : gmap string bytes) (audio_path : string)
    : result AudioSegment :=
  if endswith audio_path ".mp3" then
    b ← read_file disk audio_path; from_mp3 b
  else
    b ← read_file disk audio_path; from_wav b.

(** [seg.export(path, format="wav")]. *)
Definition export (seg : AudioSegment) (path : string) (o : outputs)
    : result outputs :=
  _ ← export_wav seg path;
  Ok {| dirs := dirs o; wavs := <[path := seg]> (wavs o) |}.

(** The cut out of [audio] between the two millisecond marks. *)
Definition excise (audio : AudioSegment) (start_ms end_ms : Z)
    : result AudioSegment :=
  before_switch ← Pydub.getitem audio None (Some start_ms);
  after_switch ← Pydub.getitem audio (Some end_ms) None;
  Ok (Pydub.add before_switch after_switch).

(** The two halves of the cropped audio. *)
Definition halves (cropped_audio : AudioSegment)
    : result (AudioSegment * AudioSegment) :=
  let mid_point := (Pydub.len cropped_audio / 2)%Z in
  clockwise ← Pydub.getitem cropped_audio None (Some mid_point);
  anticlockwise ← Pydub.getitem cropped_audio (Some mid_point) None;
  Ok (clockwise, anticlockwise).

(** The body of the [try] block of [crop_and_split_audio].  The disk
    under the output directory is threaded through: what was written
    before an exception stays written. *)
Definition crop_body (disk : gmap string bytes) (audio_path : string)
    (start_time end_time : Q) (output_dir filename : string) (o : outputs)
    : outputs * result unit :=
  match load_audio disk audio_path with
  | Raise e => (o, Raise e)
  | Ok audio =>
      let start_ms := Py.int (start_time * 1000) in
      let end_ms := Py.int (end_time * 1000) in
      match cropped_audio ← excise audio start_ms end_ms; halves cropped_audio with
      | Raise e => (o, Raise e)
      | Ok (clockwise, anticlockwise) =>
          let cw_dir := path_join output_dir "Clockwise" in
          let acw_dir := path_join output_dir "Anticlockwise" in
          let o := makedirs cw_dir o in
          let o := makedirs acw_dir o in
          let base_name := splitext_root filename in
          let cw_path := path_join cw_dir (base_name ++ "_cw.wav") in
          let acw_path := path_join acw_dir (base_name ++ "_acw.wav") in
          match export clockwise cw_path o with
          | Raise e => (o, Raise e)
          | Ok o =>
              match export anticlockwise acw_path o with
              | Raise e => (o, Raise e)
              | Ok o => (o, Ok tt)
              end
          end
      end
  end.

(** [crop_and_split_audio(audio_path, start_time, end_time, output_dir,
    filename)]: [True] when the body completes, [False] when it raises. *)
Definition crop_and_split_audio (disk : gmap string bytes) (audio_path : string)
    (start_time end_time : Q) (output_dir filename : string) (o : outputs)
    : outputs * bool :=
  let '(o', r) :=
    crop_body disk audio_path start_time end_time output_dir filename o in
  (o', negb (raised r)).

End Splitter.

(** *** Counting in samples

    The program never counts samples; to compare it with a splitter that
    cuts at sample positions, these are the counts such a splitter uses. *)

(** The sample at which second [t] falls, at [rate] samples a second. *)
Definition sample_cut (rate : Z) (t : Q) : Z := Qfloor (t * inject_Z rate).

(** The number of samples a segment holds. *)
Definition n_samples (seg : AudioSegment) : Q :=
  inject_Z (Pydub.len seg) * inject_Z (frame_rate seg) / 1000.

(** Excising [(a, b)] removes exactly the samples between the two
    sample-accurate cut points. *)
Definition sample_accurate_excision (audio : AudioSegment) (a b : Q) : Prop :=
  exists cropped,
    excise audio (Py.int (a * 1000)) (Py.int (b * 1000)) = Ok cropped
    /\ n_samples cropped ==
       n_samples audio
       - inject_Z (sample_cut (frame_rate audio) b - sample_cut (frame_rate audio) a).

(** The splitter turns the request down: it reports failure and leaves
    the output directory as it found it. *)
Definition rejects `{codec : Codec} (disk : gmap string bytes)
    (audio_path : string) (start_time end_time : Q)
    (output_dir filename : string) (o : outputs) : Prop :=
  crop_and_split_audio disk audio_path start_time end_time output_dir filename o
  = (o, false).

(** ** librosa and matplotlib, as [generate_mel_spectrogram] calls them *)

Class Librosa : Type := {
  (** [librosa.load(path, sr=22050)[0]] *)
  load : bytes -> result (list Q);
  (** [librosa.feature.melspectrogram(y=y, sr=sr, n_mels=128, ...)] *)
  melspectrogram : list Q -> result spectrogram;
  (** [librosa.power_to_db(S, ref=np.max)] *)
  power_to_db : spectrogram -> result spectrogram;
  (** [librosa.frames_to_time(np.arange(n), sr=sr, hop_length=512)] *)
  frames_to_time : nat -> result (list Q);
  (** the figure that [plt.savefig] writes *)
  savefig : spectrogram -> result bytes
}.

(** [a.shape[1]]. *)
Definition n_columns (a : spectrogram) : nat :=
  match a with
  | [] => O
  | row :: _ => length row
  end.

(** ** The request handlers and their global state *)

(** [werkzeug.utils.secure_filename]. *)
Class Werkzeug : Type := {
  secure_filename : string -> string
}.

(** An uploaded file of the request; it is truthy when its name is not
    empty. *)
Record FileStorage : Type := {
  fs_filename : string;
  fs_content : bytes
}.

(** A value of [batch_data]. *)
Record file_data : Type := {
  filename : string;
  unique_filename : string;
  file_path : string;
  spec_image_path : string;
  detected_interval : interval;
  duration : Q
}.

(** A value of [spectrogram_cache]. *)
Record spec_entry : Type := {
  mel_spec_db : spectrogram;
  time_frames : list Q;
  sr : Z
}.

(** An element of the [files] list of the upload response. *)
Record row : Type := {
  row_filename : string;
  row_unique_filename : string;
  detected_start : Q;
  detected_end : Q;
  row_duration : Q
}.

(** A Python [dict] with string keys, in insertion order. *)
Definition dict (V : Type) : Type := list (string * V).

(** [d[k] = v]: an existing key keeps its place and takes the new value,
    a new key goes last. *)
Fixpoint dict_set {V} (k : string) (v : V) (d : dict V) : dict V :=
  match d with
  | [] => [(k, v)]
  | (k', v') :: d' =>
      if String.eqb k k' then (k, v) :: d' else (k', v') :: dict_set k v d'
  end.

(** [d.get(k)]. *)
Fixpoint dict_get {V} (k : string) (d : dict V) : option V :=
  match d with
  | [] => None
  | (k', v') :: d' => if String.eqb k k' then Some v' else dict_get k d'
  end.

(** The two module globals, and the three folders of [app.config]. *)
Record state : Type := {
  batch_data : dict file_data;
  spectrogram_cache : dict spec_entry;
  upload_folder : gmap string bytes;
  spectrogram_folder : gmap string bytes;
  (** each ZIP archive of the output folder, with the files it holds *)
  output_folder : gmap string (gmap string AudioSegment)
}.

Definition initial_state : state :=
  {| batch_data := []; spectrogram_cache := [];
     upload_folder := ∅; spectrogram_folder := ∅; output_folder := ∅ |}.

(** What a handler answers. *)
Inductive response : Type :=
  | BadRequest (error : string)
  | Uploaded (files : list row) (weighted_average : Q * Q) (total_files : nat)
  | Processed (zip_filename : string) (processed_files failed_files : nat)
  | Uncaught (e : exn).

Definition UPLOAD_FOLDER : string := "uploads".
Definition SPECTROGRAM_FOLDER : string := "temp_spectrograms".
Definition OUTPUT_FOLDER : string := "output".

(** [round(x, 2)] on a value that may be [None]. *)
Definition round2_value (x : option Q) : result Q :=
  match x with
  | Some q => Ok (Py.round2 q)
  | None => Raise TypeError
  end.

(** [s] without its prefix [p]; [None] when [s] does not begin with
    [p]. *)
Fixpoint strip_prefix (p s : string) : option string :=
  match p, s with
  | EmptyString, _ => Some s
  | String a p', String b s' =>
      if Ascii.eqb a b then strip_prefix p' s' else None
  | String _ _, EmptyString => None
  end.

(** [os.path.relpath(path, start)] for a file [path] below the
    directory [start], which is what [os.walk(start)] yields. *)
Definition relpath (path start : string) : string :=
  match strip_prefix (start ++ "/") path with
  | Some rest => rest
  | None => path
  end.

(** The [with zipfile.ZipFile(...)] block of [process_batch]: every file
    below [output_dir] is written to the archive under its path
    relative to [output_dir]. *)
Definition zip_directory (output_dir : string) (o : outputs)
    : gmap string AudioSegment :=
  map_fold (fun file_path content zipf =>
              let arcname := relpath file_path output_dir in
              <[arcname := content]> zipf)
           ∅ (wavs o).

Section Handlers.

Context `{cv : OpenCV} `{codec : Codec} `{rosa : Librosa} `{wz : Werkzeug}.

(** [generate_mel_spectrogram(audio_path, output_path)], over the disk
    it reads and the folder it writes the picture to.  The triple of
    [None]s is [None]. *)
Definition generate_mel_spectrogram (disk : gmap string bytes)
    (audio_path : string) (output_path : option string)
    (pictures : gmap string bytes)
    : gmap string bytes * option (spectrogram * list Q * Z) :=
  let transform :=
    b ← read_file disk audio_path;
    y ← load b;
    mel_spec ← melspectrogram y;
    mel_spec_db ← power_to_db mel_spec;
    time_frames ← frames_to_time (n_columns mel_spec);
    Ok (mel_spec_db, time_frames) in
  match transform with
  | Raise _ => (pictures, None)
  | Ok (mel_spec_db, time_frames) =>
      match output_path with
      | Some p =>
          if String.eqb p "" then (pictures, Some (mel_spec_db, time_frames, 22050%Z))
          else
            match savefig mel_spec_db with
            | Ok png => (<[p := png]> pictures, Some (mel_spec_db, time_frames, 22050%Z))
            | Raise _ => (pictures, None)
            end
      | None => (pictures, Some (mel_spec_db, time_frames, 22050%Z))
      end
  end.

(** The [duration] entry of [file_data]. *)
Definition duration_of (time_frames : list Q) : Q :=
  match time_frames with
  | t0 :: t1 :: _ => inject_Z (Z.of_nat (length time_frames)) * (t1 - t0)
  | _ => 12.0
  end.

(** The [for file in files] loop of [upload_files].  [clock i] is what
    [datetime.now().strftime('%Y%m%d_%H%M%S_')] gives while the file at
    position [i] is handled.  The globals and the folders are updated
    as the loop goes, so they keep what was done before an exception. *)
Fixpoint upload_loop (clock : nat -> string) (i : nat)
    (files : list FileStorage) (st : state)
    (results : list row) (intervals : list interval)
    : state * result (list row * list interval) :=
  match files with
  | [] => (st, Ok (results, intervals))
  | file :: rest =>
      if negb (String.eqb (fs_filename file) "") && allowed_file (fs_filename file)
      then
        let filename := secure_filename (fs_filename file) in
        let timestamp := clock i in
        let unique_filename := (timestamp ++ filename)%string in
        let file_path := path_join UPLOAD_FOLDER unique_filename in
        let uploads := <[file_path := fs_content file]> (upload_folder st) in
        let spec_image_path :=
          path_join SPECTROGRAM_FOLDER (unique_filename ++ ".png") in
        let '(pictures, spec) :=
          generate_mel_spectrogram uploads file_path (Some spec_image_path)
            (spectrogram_folder st) in
        match spec with
        | None =>
            upload_loop clock (S i) rest
              {| batch_data := batch_data st;
                 spectrogram_cache := spectrogram_cache st;
                 upload_folder := uploads;
                 spectrogram_folder := pictures;
                 output_folder := output_folder st |}
              results intervals
        | Some (mel_spec_db, time_frames, sr) =>
            let '(start_time, end_time) :=
              detect_switch_noise mel_spec_db time_frames 5.0 7.0 in
            let file_data :=
              {| filename := filename;
                 unique_filename := unique_filename;
                 file_path := file_path;
                 spec_image_path := spec_image_path;
                 detected_interval := (start_time, end_time);
                 duration := duration_of time_frames |} in
            let st' :=
              {| batch_data := dict_set unique_filename file_data (batch_data st);
                 spectrogram_cache :=
                   dict_set unique_filename
                     {| mel_spec_db := mel_spec_db;
                        time_frames := time_frames;
                        sr := sr |}
                     (spectrogram_cache st);
                 upload_folder := uploads;
                 spectrogram_folder := pictures;
                 output_folder := output_folder st |} in
            let intervals := intervals ++ [(start_time, end_time)] in
            match
              ds ← round2_value start_time;
              de ← round2_value end_time;
              Ok {| row_filename := filename;
                    row_unique_filename := unique_filename;
                    detected_start := ds;
                    detected_end := de;
                    row_duration := Py.round2 (duration_of time_frames) |}
            with
            | Raise e => (st', Raise e)
            | Ok r => upload_loop clock (S i) rest st' (results ++ [r]) intervals
            end
        end
      else upload_loop clock (S i) rest st results intervals
  end.

(** The state right after "Clear previous data" and "Clean up old
    files". *)
Definition cleared (st : state) : state :=
  {| batch_data := [];
     spectrogram_cache := [];
     upload_folder := ∅;
     spectrogram_folder := ∅;
     output_folder := output_folder st |}.

(** Does the request get past the two early returns? *)
Definition selects_files (files : list FileStorage) : bool :=
  negb (match files with [] => true | _ => false end
        || forallb (fun f => String.eqb (fs_filename f) "") files).

(** [upload_files()]; [files] is [None] when the request has no
    ['files'] part. *)
Definition upload_files (clock : nat -> string)
    (files : option (list FileStorage)) (st : state) : state * response :=
  match files with
  | None => (st, BadRequest "No files provided")
  | Some files =>
      if negb (selects_files files) then (st, BadRequest "No files selected")
      else
        match upload_loop clock 0 files (cleared st) [] [] with
        | (st', Raise e) => (st', Uncaught e)
        | (st', Ok (results, intervals)) =>
            match results with
            | [] => (st', BadRequest "No valid audio files processed")
            | _ =>
                (st', Uploaded results
                        (calculate_weighted_average_interval intervals)
                        (length results))
            end
        end
  end.

(** The [for unique_filename, file_data in batch_data.items()] loop of
    [process_batch]. *)
Fixpoint split_loop (disk : gmap string bytes) (start_time end_time : Q)
    (output_dir : string) (entries : dict file_data) (o : outputs)
    (processed_files failed_files : list string)
    : outputs * list string * list string :=
  match entries with
  | [] => (o, processed_files, failed_files)
  | (_, fd) :: rest =>
      let '(o', success) :=
        crop_and_split_audio disk (file_path fd) start_time end_time
          output_dir (filename fd) o in
      if success then
        split_loop disk start_time end_time output_dir rest o'
          (processed_files ++ [filename fd]) failed_files
      else
        split_loop disk start_time end_time output_dir rest o'
          processed_files (failed_files ++ [filename fd])
  end.

(** [process_batch()]; [data] is [None] when the JSON body lacks a
    bound, [timestamp] is the clock reading.  The archive holds every
    file written under the output directory, under its path relative
    to that directory. *)
Definition process_batch (timestamp : string) (data : option (Q * Q))
    (st : state) : state * response :=
  match data with
  | None => (st, BadRequest "Invalid parameters")
  | Some (start_time, end_time) =>
      let output_dir := path_join OUTPUT_FOLDER ("batch_" ++ timestamp) in
      let '(o, processed_files, failed_files) :=
        split_loop (upload_folder st) start_time end_time output_dir
          (batch_data st) no_outputs [] [] in
      let zip_filename := ("processed_audio_" ++ timestamp ++ ".zip")%string in
      let zip_path := path_join OUTPUT_FOLDER zip_filename in
      ({| batch_data := batch_data st;
          spectrogram_cache := spectrogram_cache st;
          upload_folder := upload_folder st;
          spectrogram_folder := spectrogram_folder st;
          output_folder :=
            <[zip_path := zip_directory output_dir o]> (output_folder st) |},
       Processed zip_filename (length processed_files) (length failed_files))
  end.

(** A request to the application. *)
Inductive request : Type :=
  | Upload (clock : nat -> string) (files : option (list FileStorage))
  | ProcessBatch (timestamp : string) (data : option (Q * Q)).

Definition handle (st : state) (r : request) : state * response :=
  match r with
  | Upload clock files => upload_files clock files st
  | ProcessBatch timestamp data => process_batch timestamp data st
  end.

(** The state after a sequence of requests, served one after the other. *)
Definition run (st : state) (reqs : list request) : state :=
  fold_left (fun s r => fst (handle s r)) reqs st.

(** The files a [process_batch] call hands to the splitter. *)
Definition split_inputs (st : state) : list string :=
  map (fun kv => file_path (snd kv)) (batch_data st).

End Handlers.

(** The batch state: everything an upload clears, that is, the two
    globals and the two folders (the output folder is left alone). *)
Definition batch_view (st : state)
    : dict file_data * dict spec_entry * gmap string bytes * gmap string bytes :=
  (batch_data st, spectrogram_cache st, upload_folder st, spectrogram_folder st).

(** The entry [k] of [batch_data] was made from the file at position [j]
    of the request. *)
Definition made_from `{wz : Werkzeug} (clock : nat -> string)
    (files : list FileStorage) (k : string) (fd : file_data) : Prop :=
  exists j file,
    files !! j = Some file
    /\ allowed_file (fs_filename file) = true
    /\ k = (clock j ++ secure_filename (fs_filename file))%string
    /\ unique_filename fd = k
    /\ filename fd = secure_filename (fs_filename file)
    /\ file_path fd = path_join UPLOAD_FOLDER k.

(** ** Concrete collaborators

    Small, fully computable instances of the four interfaces, used to
    run the program on concrete inputs. *)

Module Fixture.

(** An OpenCV whose pipeline ends in the given [findContours] answer;
    a contour is its bounding rectangle and its area is [w * h]. *)
Definition cv_with (found : result (list (Z * Z * Z * Z))) : OpenCV :=
  {| image := unit;
     contour := Z * Z * Z * Z;
     normalize := fun _ _ _ => Ok tt;
     GaussianBlur := fun _ _ _ => Ok tt;
     threshold := fun _ _ _ => Ok (0, tt);
     getStructuringElement := fun _ => Ok tt;
     morphologyEx := fun _ _ => Ok tt;
     findContours := fun _ => found;
     contourArea := fun '(_, _, w, h) => Ok (inject_Z (w * h));
     boundingRect := fun c => Ok c |}.

(** Nothing survives the opening, as on a flat spectrogram. *)
Definition cv_flat : OpenCV := cv_with (Ok []).

(** One vertical band, [w] frames wide, [x] frames into the window. *)
Definition cv_band (x w : Z) : OpenCV := cv_with (Ok [(x, 0, w, 128)%Z]).

(** An OpenCV whose blur fails. *)
Definition cv_broken : OpenCV :=
  {| image := unit;
     contour := unit;
     normalize := fun _ _ _ => Ok tt;
     GaussianBlur := fun _ _ _ => Raise cv2_error;
     threshold := fun _ _ _ => Ok (0, tt);
     getStructuringElement := fun _ => Ok tt;
     morphologyEx := fun _ _ => Ok tt;
     findContours := fun _ => Ok [];
     contourArea := fun _ => Ok 0;
     boundingRect := fun _ => Ok (0, 0, 0, 0)%Z |}.

(** A time axis of [n] frames, one second apart. *)
Definition seconds (n : nat) : list Q :=
  map (fun i => inject_Z (Z.of_nat i)) (seq 0 n).

(** A spectrogram of two bands over [n] frames. *)
Definition flat_spectrogram (n : nat) : spectrogram :=
  [repeat 0 n; repeat 0 n].

(** A codec for which every byte of a file is one millisecond of
    audio at 44100 Hz; an empty file does not decode. *)
Definition decode (b : bytes) : result AudioSegment :=
  match b with
  | [] => Raise CouldntDecodeError
  | _ =>
      Ok {| frame_rate := 44100;
            units := map (fun x => Z.of_N (Byte.to_N x)) b |}
  end.

Definition codec : Codec :=
  {| from_mp3 := decode; from_wav := decode; export_wav := fun _ _ => Ok tt |}.

(** A codec that only knows MP3. *)
Definition codec_mp3_only : Codec :=
  {| from_mp3 := decode;
     from_wav := fun _ => Raise CouldntDecodeError;
     export_wav := fun _ _ => Ok tt |}.

(** A transform for which every byte of a file is one frame, the
    frames being one second apart; an empty file does not load. *)
Definition rosa : Librosa :=
  {| load := fun b =>
       match b with
       | [] => Raise librosa_error
       | _ => Ok (map (fun x => inject_Z (Z.of_N (Byte.to_N x))) b)
       end;
     melspectrogram := fun y => Ok (flat_spectrogram (length y));
     power_to_db := fun s => Ok s;
     frames_to_time := fun n => Ok (seconds n);
     savefig := fun _ => Ok [] |}.

Definition wz : Werkzeug := {| secure_filename := fun s => s |}.

(** A file of [n] bytes. *)
Definition file_of (name : string) (n : nat) : FileStorage :=
  {| fs_filename := name; fs_content := repeat "a"%byte n |}.

(** A clock that reads the same second all along a request. *)
Definition clock_at (t : string) : nat -> string := fun _ => t.

(** An audio of [n] milliseconds at 44100 Hz, the millisecond [i]
    holding [i]. *)
Definition ramp (n : nat) : AudioSegment :=
  {| frame_rate := 44100; units := map Z.of_nat (seq 0 n) |}.

End Fixture.

(** ** Vocabulary for further properties of the code *)

(** [r] is the first index at which [a] is smallest. *)
Definition first_minimum (a : list Q) (r : nat) : Prop :=
  exists m,
    a !! r = Some m
    /\ (forall j x, a !! j = Some x -> m <= x)
    /\ (forall j x, (j < r)%nat -> a !! j = Some x -> m < x).



(** A time axis that always goes forward, as [librosa.frames_to_time]
    produces. *)
Definition increasing (a : list Q) : Prop :=
  forall i j x y,
    (i < j)%nat -> a !! i = Some x -> a !! j = Some y -> x < y.

(** [c], of area [k], is the first contour of largest area in
    [contours]. *)
Definition first_largest `{cv : OpenCV} (contours : list contour)
    (c : contour) (k : Q) : Prop :=
  exists before after,
    contours = before ++ c :: after
    /\ contourArea c = Ok k
    /\ (forall c', In c' before -> exists k', contourArea c' = Ok k' /\ k' < k)
    /\ (forall c', In c' after -> exists k', contourArea c' = Ok k' /\ k' <= k).

(** What the detector answers on the default window: nothing, or a start
    no earlier than 4.5 s and an end at least half a second later and no
    later than 7.5 s. *)
Definition well_separated (i : interval) : Prop :=
  match i with
  | (Some s, Some e) => 4.5 <= s /\ s + 0.5 <= e /\ e <= 7.5
  | (None, None) => True
  | _ => False
  end.

(** ** The read-only handlers *)

(** What [get_spectrogram] answers: 404, or the JSON object. *)
Inductive spectrogram_response : Type :=
  | SpectrogramNotFound
  | SpectrogramData (spec_mel : spectrogram) (spec_times : list Q) (spec_sr : Z)
      (spec_filename : string) (spec_interval : interval).

(** [get_spectrogram(unique_filename)].  A missing [batch_data] entry
    gives the name [''] and the interval [[5.5, 6.5]]. *)
Definition get_spectrogram (unique_filename : string) (st : state)
    : spectrogram_response :=
  match dict_get unique_filename (spectrogram_cache st) with
  | None => SpectrogramNotFound
  | Some spec_data =>
      let file_info := dict_get unique_filename (batch_data st) in
      SpectrogramData (mel_spec_db spec_data) (time_frames spec_data)
        (sr spec_data)
        (from_option filename ""%string file_info)
        (from_option detected_interval (Some 5.5, Some 6.5) file_info)
  end.

(** An element of the list [get_file_list] answers. *)
Record listed_file : Type := {
  listed_unique_filename : string;
  listed_filename : string;
  listed_interval : interval
}.

(** [get_file_list()]. *)
Definition get_file_list (st : state) : list listed_file :=
  map (fun kv =>
         {| listed_unique_filename := fst kv;
            listed_filename := filename (snd kv);
            listed_interval := detected_interval (snd kv) |})
      (batch_data st).

(** What [download_zip] answers: 404, or the archive as an attachment. *)
Inductive download_response : Type :=
  | DownloadNotFound
  | Attachment (download_name : string) (archive : gmap string AudioSegment).

(** [download_zip(filename)]. *)
Definition download_zip (filename : string) (st : state) : download_response :=
  let zip_path := path_join OUTPUT_FOLDER filename in
  match output_folder st !! zip_path with
  | None => DownloadNotFound
  | Some archive => Attachment filename archive
  end.

(** The keys of a [dict], in order. *)
Definition dict_keys {V} (d : dict V) : list string := map fst d.

(** What the two globals and the upload folder have in common at any
    time: the same keys in the same order, no key twice, and, for every
    entry, its key as [unique_filename] and its file in the upload
    folder. *)
Definition consistent (st : state) : Prop :=
  dict_keys (batch_data st) = dict_keys (spectrogram_cache st)
  /\ NoDup (dict_keys (batch_data st))
  /\ forall k fd,
       In (k, fd) (batch_data st) ->
       unique_filename fd = k
       /\ file_path fd = path_join UPLOAD_FOLDER k
       /\ is_Some (upload_folder st !! file_path fd).


(** A row of the upload answer whose interval is in the plausible
    range. *)
Definition row_in_range (r : row) : Prop :=
  4.5 <= detected_start r
  /\ detected_start r < detected_end r
  /\ detected_end r <= 7.5.

(** A codec that reads any file, each byte being one millisecond, and
    whose exports succeed. *)
Definition codec_reads_anything : Codec :=
  {| from_mp3 := fun b =>
       Ok {| frame_rate := 44100;
             units := map (fun x => Z.of_N (Byte.to_N x)) b |};
     from_wav := fun b =>
       Ok {| frame_rate := 44100;
             units := map (fun x => Z.of_N (Byte.to_N x)) b |};
     export_wav := fun _ _ => Ok tt |}.

(** Every file of [files] lies below the directory [output_dir]. *)
Definition all_below (output_dir : string) (files : gmap string AudioSegment)
    : Prop :=
  forall file_path, is_Some (files !! file_path) ->
    exists member, file_path = path_join output_dir member.

(** ** The splitter and the batch handler on binary64

    [int(t * 1000)] is where the program leaves floating point, and
    the one place where a float that is not finite, or a product that
    overflows, makes it raise.  Here the two times are binary64 floats:
    the product is the correctly rounded one of the machine, and [int]
    truncates its exact value toward zero.  From the two integers on,
    the code is that of [crop_and_split_audio] above. *)

Module F64.

(** [int(x)]: the integer part of a finite [x], which is the float
    [m * 2 ^ e] with its sign; [int] of an infinity raises
    [OverflowError], [int] of a NaN raises [ValueError]. *)
Definition int (x : float) : result Z :=
  match Prim2SF x with
  | S754_zero _ => Ok 0%Z
  | S754_infinity _ => Raise OverflowError
  | S754_nan => Raise ValueError
  | S754_finite negative m e =>
      let magnitude :=
        if (0 <=? e)%Z then (Z.pos m * 2 ^ e)%Z else (Z.pos m / 2 ^ (- e))%Z in
      Ok (if negative then (- magnitude)%Z else magnitude)
  end.

(** [int(t * 1000)]. *)
Definition ms (t : float) : result Z := int (t * 1000)%float.

(** The conversion of the two times and the cut, lines 151 to 157. *)
Definition excise_between (audio : AudioSegment) (start_time end_time : float)
    : result AudioSegment :=
  start_ms ← ms start_time;
  end_ms ← ms end_time;
  excise audio start_ms end_ms.

Section Splitter.

Context `{codec : Codec}.

(** The body of the [try] block of [crop_and_split_audio]. *)
Definition crop_body (disk : gmap string bytes) (audio_path : string)
    (start_time end_time : float) (output_dir filename : string) (o : outputs)
    : outputs * result unit :=
  match load_audio disk audio_path with
  | Raise e => (o, Raise e)
  | Ok audio =>
      match
        cropped_audio ← excise_between audio start_time end_time;
        halves cropped_audio
      with
      | Raise e => (o, Raise e)
      | Ok (clockwise, anticlockwise) =>
          let cw_dir := path_join output_dir "Clockwise" in
          let acw_dir := path_join output_dir "Anticlockwise" in
          let o := makedirs cw_dir o in
          let o := makedirs acw_dir o in
          let base_name := splitext_root filename in
          let cw_path := path_join cw_dir (base_name ++ "_cw.wav") in
          let acw_path := path_join acw_dir (base_name ++ "_acw.wav") in
          match export clockwise cw_path o with
          | Raise e => (o, Raise e)
          | Ok o =>
              match export anticlockwise acw_path o with
              | Raise e => (o, Raise e)
              | Ok o => (o, Ok tt)
              end
          end
      end
  end.

(** [crop_and_split_audio(audio_path, start_time, end_time, output_dir,
    filename)] for two floats. *)
Definition crop_and_split_audio (disk : gmap string bytes) (audio_path : string)
    (start_time end_time : float) (output_dir filename : string) (o : outputs)
    : outputs * bool :=
  let '(o', r) :=
    crop_body disk audio_path start_time end_time output_dir filename o in
  (o', negb (raised r)).

(** The loop of [process_batch]. *)
Fixpoint split_loop (disk : gmap string bytes) (start_time end_time : float)
    (output_dir : string) (entries : dict file_data) (o : outputs)
    (processed_files failed_files : list string)
    : outputs * list string * list string :=
  match entries with
  | [] => (o, processed_files, failed_files)
  | (_, fd) :: rest =>
      let '(o', success) :=
        crop_and_split_audio disk (file_path fd) start_time end_time
          output_dir (filename fd) o in
      if success then
        split_loop disk start_time end_time output_dir rest o'
          (processed_files ++ [filename fd]) failed_files
      else
        split_loop disk start_time end_time output_dir rest o'
          processed_files (failed_files ++ [filename fd])
  end.

(** [process_batch()] for a JSON body whose two bounds are numbers:
    [float(data['start_time'])] and [float(data['end_time'])] are then
    the two floats of [data]. *)
Definition process_batch (timestamp : string) (data : option (float * float))
    (st : state) : state * response :=
  match data with
  | None => (st, BadRequest "Invalid parameters")
  | Some (start_time, end_time) =>
      let output_dir := path_join OUTPUT_FOLDER ("batch_" ++ timestamp) in
      let '(o, processed_files, failed_files) :=
        split_loop (upload_folder st) start_time end_time output_dir
          (batch_data st) no_outputs [] [] in
      let zip_filename := ("processed_audio_" ++ timestamp ++ ".zip")%string in
      let zip_path := path_join OUTPUT_FOLDER zip_filename in
      ({| batch_data := batch_data st;
          spectrogram_cache := spectrogram_cache st;
          upload_folder := upload_folder st;
          spectrogram_folder := spectrogram_folder st;
          output_folder :=
            <[zip_path := zip_directory output_dir o]> (output_folder st) |},
       Processed zip_filename (length processed_files) (length failed_files))
  end.

End Splitter.

End F64.

(** * Properties *)

(** ** Rounding and Python arithmetic *)

Lemma ltb_lt (a b : Q) : Py.ltb a b = true <-> a < b.
Proof.
  unfold Py.ltb. rewrite Qlt_alt.
  destruct (Qcompare a b); split; intros H; congruence.
Qed.

Lemma ltb_ge (a b : Q) : Py.ltb a b = false <-> b <= a.
Proof.
  unfold Py.ltb. rewrite Qle_alt, <- Qgt_alt, Qlt_alt.
  destruct (Qcompare a b) eqn:E; split; intros H; try congruence.
Qed.

Lemma min_spec (a b : Q) :
  (b < a /\ Py.min a b = b) \/ (a <= b /\ Py.min a b = a).
Proof.
  unfold Py.min. destruct (Py.ltb b a) eqn:E.
  - left. apply ltb_lt in E. auto.
  - right. apply ltb_ge in E. auto.
Qed.

Lemma max_spec (a b : Q) :
  (a < b /\ Py.max a b = b) \/ (b <= a /\ Py.max a b = a).
Proof.
  unfold Py.max. destruct (Py.ltb a b) eqn:E.
  - left. apply ltb_lt in E. auto.
  - right. apply ltb_ge in E. auto.
Qed.

Lemma round_half_even_close (x : Q) :
  Qabs (inject_Z (Py.round_half_even x) - x) <= 1 # 2.
Proof.
  unfold Py.round_half_even.
  pose proof (Qfloor_le x) as Hlo.
  pose proof (Qlt_floor x) as Hhi.
  rewrite inject_Z_plus in Hhi. change (inject_Z 1) with 1 in Hhi.
  set (f := Qfloor x) in *.
  apply Qabs_Qle_condition.
  destruct (Qcompare (x - inject_Z f) (1 # 2)) eqn:E.
  - apply Qeq_alt in E.
    destruct (Z.even f); rewrite ?inject_Z_plus; change (inject_Z 1) with 1;
      split; lra.
  - apply Qlt_alt in E. split; lra.
  - apply Qgt_alt in E. rewrite inject_Z_plus. change (inject_Z 1) with 1.
    split; lra.
Qed.

Lemma round2_grid (x : Q) :
  Py.round2 x == inject_Z (Py.round_half_even (x * 100)) / 100.
Proof. unfold Py.round2. apply Qred_correct. Qed.

Lemma round2_close (x : Q) : Qabs (Py.round2 x - x) <= 1 # 200.
Proof.
  rewrite round2_grid.
  pose proof (round_half_even_close (x * 100)) as H.
  apply Qabs_Qle_condition in H. apply Qabs_Qle_condition.
  set (r := inject_Z (Py.round_half_even (x * 100))) in *.
  assert (Hd : r / 100 == r * (1 # 100)) by (field; lra).
  rewrite Hd. split; lra.
Qed.

(** ** The aggregator *)

Lemma omap_fst_discard (intervals : list interval) :
  Forall detector_shaped intervals ->
  omap fst (discard_invalid intervals) = omap fst intervals.
Proof.
  induction 1 as [| i l Hshape _ IH]; [reflexivity |].
  destruct i as [[s|] [e|]]; simpl in *; try contradiction;
    [f_equal |]; exact IH.
Qed.

Lemma omap_snd_discard (intervals : list interval) :
  Forall detector_shaped intervals ->
  omap snd (discard_invalid intervals) = omap snd intervals.
Proof.
  induction 1 as [| i l Hshape _ IH]; [reflexivity |].
  destruct i as [[s|] [e|]]; simpl in *; try contradiction;
    [f_equal |]; exact IH.
Qed.

(** What the aggregator computes from the two filtered lists. *)
Lemma aggregator_unfold (intervals : list interval) :
  calculate_weighted_average_interval intervals =
  match omap fst intervals, omap snd intervals with
  | [], _ | _, [] => (5.5, 6.5)
  | starts, ends => (Py.round2 (np_mean starts), Py.round2 (np_mean ends))
  end.
Proof.
  destruct intervals as [| i l]; [reflexivity |].
  unfold calculate_weighted_average_interval. cbv zeta.
  destruct (omap fst (i :: l)), (omap snd (i :: l)); reflexivity.
Qed.



(** C2, as stated, fails: the entry [(1.0, None)] has no end, yet its
    start is averaged with the start of [(5.0, 6.0)], giving [(3.0, 6.0)]
    where dropping the entry as a whole gives [(5.0, 6.0)]. *)
Lemma partial_entry_still_counts :
  calculate_weighted_average_interval [(Some 1.0, None); (Some 5.0, Some 6.0)]
    = (3, 6)
  /\ calculate_weighted_average_interval
       (discard_invalid [(Some 1.0, None); (Some 5.0, Some 6.0)]) = (5, 6)
  /\ ~ discards_whole_entries [(Some 1.0, None); (Some 5.0, Some 6.0)].
Proof.
  split; [reflexivity | split; [reflexivity |]].
  intros [H _]. vm_compute in H. discriminate.
Qed.

(** C2, amended: each bound is filtered on its own, a missing start
    being left out of the starts and a missing end out of the ends; on
    entries that have both bounds or neither, which is all the detector
    produces, this is the same as dropping every entry with a missing
    bound as a whole before aggregating. *)
Theorem missing_bounds_discarded_per_bound (intervals : list interval) :
  Forall detector_shaped intervals ->
  (forall l : list interval,
      calculate_weighted_average_interval l
      = match omap fst l, omap snd l with
        | [], _ | _, [] => (5.5, 6.5)
        | starts, ends => (Py.round2 (np_mean starts), Py.round2 (np_mean ends))
        end)
  /\ omap fst intervals = omap fst (discard_invalid intervals)
  /\ omap snd intervals = omap snd (discard_invalid intervals)
  /\ calculate_weighted_average_interval intervals
     = calculate_weighted_average_interval (discard_invalid intervals).
Proof.
  intros H.
  pose proof (omap_fst_discard intervals H) as Hs.
  pose proof (omap_snd_discard intervals H) as He.
  split; [exact aggregator_unfold |].
  repeat split; try congruence.
  rewrite !aggregator_unfold, Hs, He. reflexivity.
Qed.

Lemma missing_bounds_discarded_per_bound_witness :
  calculate_weighted_average_interval
    [(None, None); (Some 5.0, Some 6.0); (None, None); (Some 6.0, Some 7.0)]
  = calculate_weighted_average_interval
      (discard_invalid
         [(None, None); (Some 5.0, Some 6.0); (None, None); (Some 6.0, Some 7.0)]).
Proof.
  apply (missing_bounds_discarded_per_bound
           [(None, None); (Some 5.0, Some 6.0); (None, None); (Some 6.0, Some 7.0)]).
  repeat constructor.
Defined.




(** ** The click detector *)

(** The clamping step of [detect_switch_noise]. *)
Lemma clamp_in_range (detected_start detected_end : Q) :
  let s := Py.max 4.5 (Py.min detected_start 6.0) in
  let e := Py.max (s + 0.5) (Py.min detected_end 7.5) in
  clamped (Some s, Some e).
Proof.
  intros s e. unfold clamped.
  assert (Hs : 4.5 <= s /\ s <= 6.0).
  { subst s.
    destruct (min_spec detected_start 6.0) as [[H1 ->] | [H1 ->]];
      destruct (max_spec 4.5 6.0) as [[H2 E2] | [H2 E2]];
      destruct (max_spec 4.5 detected_start) as [[H3 E3] | [H3 E3]];
      rewrite ?E2, ?E3; split; lra. }
  destruct Hs as [Hs1 Hs2].
  subst e.
  destruct (min_spec detected_end 7.5) as [[H1 ->] | [H1 ->]].
  - destruct (max_spec (s + 0.5) 7.5) as [[H2 ->] | [H2 ->]];
      repeat split; lra.
  - destruct (max_spec (s + 0.5) detected_end) as [[H2 ->] | [H2 ->]];
      repeat split; lra.
Qed.


(** Peel one [x ← r; ...] off a hypothesis about a computation. *)
Tactic Notation "step" hyp(H) "as" simple_intropattern(p) :=
  match type of H with
  | context [mbind _ ?r] =>
      let E := fresh "E" in
      destruct r as [p | ?] eqn:E;
      cbn [mbind result_bind] in H; try discriminate H
  end.

Section DetectorFacts.

Context `{cv : OpenCV}.

(** Every value the body of the detector can produce. *)
Lemma detect_body_cases (mel_spec_db : spectrogram) (time_frames : list Q)
    (start_time end_time : Q) (r : interval) :
  detect_body mel_spec_db time_frames start_time end_time = Ok r ->
  r = (None, None) \/ r = (Some start_time, Some end_time) \/ clamped r.
Proof.
  unfold detect_body. intros H.
  step H as start_idx. step H as end_idx.
  destruct (_ <=? _)%nat; [left; congruence |].
  step H as roi_normalized. step H as blurred. step H as [otsu thresh].
  step H as kernel. step H as vertical_structure.
  step H as [| c cs]; [right; left; congruence |].
  step H as largest_contour. step H as [[[x y] w] h].
  step H as detected_start. step H as detected_end.
  right; right. injection H as <-. apply clamp_in_range.
Qed.

Lemma detect_cases (mel_spec_db : spectrogram) (time_frames : list Q)
    (start_time end_time : Q) :
  let r := detect_switch_noise mel_spec_db time_frames start_time end_time in
  r = (None, None) \/ r = (Some start_time, Some end_time) \/ clamped r.
Proof.
  unfold detect_switch_noise.
  destruct (detect_body _ _ _ _) as [r | e] eqn:E; cbv zeta.
  - eapply detect_body_cases, E.
  - right; left; reflexivity.
Qed.

(** A window that resolves to frame indices not in strict order gives
    "no detection". *)
Lemma degenerate_window_detects_nothing (mel_spec_db : spectrogram)
    (time_frames : list Q) (start_time end_time : Q) (start_idx end_idx : nat) :
  window_indices time_frames start_time end_time = Ok (start_idx, end_idx) ->
  (end_idx <= start_idx)%nat ->
  detect_switch_noise mel_spec_db time_frames start_time end_time = (None, None).
Proof.
  unfold window_indices, detect_switch_noise, detect_body. intros H Hle.
  step H as si. step H as ei. injection H as -> ->.
  cbn [mbind result_bind].
  destruct (Nat.leb_spec end_idx start_idx); [reflexivity | lia].
Qed.

End DetectorFacts.

(** ** pydub slices *)

Lemma len_nonneg (seg : AudioSegment) : (0 <= Pydub.len seg)%Z.
Proof. unfold Pydub.len. lia. Qed.

Lemma parse_position_nonneg (seg : AudioSegment) (val : Z) :
  (0 <= val)%Z -> Pydub.parse_position seg val = val.
Proof.
  intros H. unfold Pydub.parse_position.
  destruct (Z.ltb_spec val 0); [lia | reflexivity].
Qed.

Lemma data_slice_in_range (data : list ms_unit) (lo hi : Z) :
  (0 <= lo <= Z.of_nat (length data))%Z ->
  (0 <= hi <= Z.of_nat (length data))%Z ->
  Pydub.data_slice data lo hi = drop (Z.to_nat lo) (take (Z.to_nat hi) data).
Proof.
  intros Hlo Hhi. unfold Pydub.data_slice, py_slice.
  destruct (Z.ltb_spec lo 0); [lia |].
  destruct (Z.ltb_spec hi 0); [lia |].
  rewrite !Z.min_l by lia. reflexivity.
Qed.

(** A slice whose data has the expected length is returned as it is. *)
Lemma getitem_in_range (seg : AudioSegment) (start stop : option Z) (lo hi : Z) :
  Z.min (default 0%Z start) (Pydub.len seg) = lo ->
  Z.min (default (Pydub.len seg) stop) (Pydub.len seg) = hi ->
  (0 <= lo <= hi)%Z ->
  Pydub.getitem seg start stop
  = Ok (Pydub.spawn seg (drop (Z.to_nat lo) (take (Z.to_nat hi) (units seg)))).
Proof.
  intros Hlo Hhi Hle. pose proof (len_nonneg seg) as Hlen.
  assert (Hhi' : (hi <= Pydub.len seg)%Z) by lia.
  unfold Pydub.getitem. cbv zeta. rewrite Hlo, Hhi.
  rewrite !parse_position_nonneg by lia.
  unfold Pydub.len in *.
  rewrite data_slice_in_range by lia.
  assert (Hl : Z.of_nat (length (drop (Z.to_nat lo) (take (Z.to_nat hi) (units seg))))
               = (hi - lo)%Z).
  { rewrite length_drop, length_take. lia. }
  rewrite Hl.
  destruct (Z.eqb_spec (hi - lo - (hi - lo)) 0); [reflexivity | lia].
Qed.

(** [seg[:stop]] for a non-negative [stop]: the first [stop]
    milliseconds, or the whole segment when it is shorter. *)
Lemma getitem_prefix (seg : AudioSegment) (stop : Z) :
  (0 <= stop)%Z ->
  Pydub.getitem seg None (Some stop)
  = Ok (Pydub.spawn seg
          (take (Z.to_nat (Z.min stop (Pydub.len seg))) (units seg))).
Proof.
  intros Hstop. pose proof (len_nonneg seg) as Hlen.
  rewrite (getitem_in_range seg None (Some stop) 0 (Z.min stop (Pydub.len seg)));
    [reflexivity | simpl; lia | reflexivity | lia].
Qed.

(** [seg[start:]] for a non-negative [start]: what follows the first
    [start] milliseconds, nothing when the segment is shorter. *)
Lemma getitem_suffix (seg : AudioSegment) (start : Z) :
  (0 <= start)%Z ->
  Pydub.getitem seg (Some start) None
  = Ok (Pydub.spawn seg
          (drop (Z.to_nat (Z.min start (Pydub.len seg))) (units seg))).
Proof.
  intros Hstart. pose proof (len_nonneg seg) as Hlen.
  rewrite (getitem_in_range seg (Some start) None
             (Z.min start (Pydub.len seg)) (Pydub.len seg));
    [| reflexivity | simpl; lia | lia].
  rewrite take_ge; [reflexivity | unfold Pydub.len; lia].
Qed.

(** The excise step on non-negative cut points: both are capped at the
    length of the audio, nothing is refused. *)
Lemma excise_clamps (audio : AudioSegment) (start_ms end_ms : Z) :
  (0 <= start_ms)%Z -> (0 <= end_ms)%Z ->
  excise audio start_ms end_ms
  = Ok (Pydub.spawn audio
          (take (Z.to_nat (Z.min start_ms (Pydub.len audio))) (units audio)
           ++ drop (Z.to_nat (Z.min end_ms (Pydub.len audio))) (units audio))).
Proof.
  intros Hs He. unfold excise.
  rewrite getitem_prefix, getitem_suffix by assumption.
  reflexivity.
Qed.

Lemma halves_at_midpoint (cropped_audio : AudioSegment) :
  halves cropped_audio
  = Ok (Pydub.spawn cropped_audio
          (take (Z.to_nat (Pydub.len cropped_audio / 2)) (units cropped_audio)),
        Pydub.spawn cropped_audio
          (drop (Z.to_nat (Pydub.len cropped_audio / 2)) (units cropped_audio))).
Proof.
  pose proof (len_nonneg cropped_audio) as Hlen.
  assert (Hmid : (0 <= Pydub.len cropped_audio / 2 <= Pydub.len cropped_audio)%Z).
  { split; [apply Z.div_pos; lia |]. apply Z.div_le_upper_bound; lia. }
  unfold halves.
  rewrite getitem_prefix, getitem_suffix by lia.
  rewrite Z.min_l by lia. reflexivity.
Qed.

(** ** [int] on non-negative floats *)




(** ** The segment splitter *)

Section SplitterFacts.

Context `{codec : Codec}.

(** A decode failure ends the call before anything is written. *)
Lemma crop_decode_failure (disk : gmap string bytes) (audio_path : string)
    (start_time end_time : Q) (output_dir filename : string) (o : outputs)
    (e : exn) :
  load_audio disk audio_path = Raise e ->
  crop_and_split_audio disk audio_path start_time end_time output_dir filename o
  = (o, false).
Proof.
  intros H. unfold crop_and_split_audio, crop_body. rewrite H. reflexivity.
Qed.


End SplitterFacts.

(** C1, as stated, fails: on a 12-second recording the interval
    (start=7.0, end=5.0) is not turned down.  The call answers [True]
    and leaves two files of 7 seconds each, the first 7 seconds of the
    recording followed by its last 7 seconds, cut in two. *)
Lemma inverted_interval_is_split :
  let disk : gmap string bytes :=
    {[ "uploads/a.wav"%string := repeat "a"%byte (12 * 1000) ]} in
  let run :=
    crop_and_split_audio (codec := Fixture.codec) disk "uploads/a.wav"
      7.0 5.0 "output/batch_t" "a.wav" no_outputs in
  snd run = true
  /\ Pydub.len <$> wavs (fst run) !! "output/batch_t/Clockwise/a_cw.wav"%string
     = Some 7000%Z
  /\ Pydub.len <$> wavs (fst run) !! "output/batch_t/Anticlockwise/a_acw.wav"%string
     = Some 7000%Z
  /\ ~ rejects (codec := Fixture.codec) disk "uploads/a.wav"
         7.0 5.0 "output/batch_t" "a.wav" no_outputs.
Proof.
  cbv zeta. split; [vm_compute; reflexivity |].
  split; [vm_compute; reflexivity |].
  split; [vm_compute; reflexivity |].
  unfold rejects. intros H. apply (f_equal snd) in H.
  vm_compute in H. discriminate H.
Qed.

(** ** The segment splitter on binary64 *)

(** The conversion on some floats: the double nearest to 4.02 gives
    4019 and not 4020, the double nearest to 4.6 gives 4600, and a
    product that overflows, or a time that is not a number, raises. *)
Lemma ms_examples :
  F64.ms 7 = Ok 7000%Z
  /\ F64.ms 0x1.0147ae147ae14p+2 = Ok 4019%Z
  /\ F64.ms 0x1.2666666666666p+2 = Ok 4600%Z
  /\ F64.ms (-0x1.0147ae147ae14p+2) = Ok (-4019)%Z
  /\ F64.ms 0x1p+1020 = Raise OverflowError
  /\ F64.ms infinity = Raise OverflowError
  /\ F64.ms nan = Raise ValueError.
Proof. repeat split; vm_compute; reflexivity. Qed.

Section SplitterF64Facts.

Context `{codec : Codec}.

(** A decode failure ends the call before anything is written. *)
Lemma crop_f64_decode_failure (disk : gmap string bytes) (audio_path : string)
    (start_time end_time : float) (output_dir filename : string) (o : outputs)
    (e : exn) :
  load_audio disk audio_path = Raise e ->
  F64.crop_and_split_audio disk audio_path start_time end_time
    output_dir filename o
  = (o, false).
Proof.
  intros H. unfold F64.crop_and_split_audio, F64.crop_body. rewrite H.
  reflexivity.
Qed.

(** So does a time whose conversion to milliseconds raises. *)
Lemma crop_f64_conversion_failure (disk : gmap string bytes)
    (audio_path : string) (start_time end_time : float)
    (output_dir filename : string) (o : outputs) :
  (exists e, F64.ms start_time = Raise e)
  \/ (exists e, F64.ms end_time = Raise e) ->
  F64.crop_and_split_audio disk audio_path start_time end_time
    output_dir filename o
  = (o, false).
Proof.
  intros H. unfold F64.crop_and_split_audio, F64.crop_body.
  destruct (load_audio disk audio_path) as [audio | e0]; [| reflexivity].
  unfold F64.excise_between.
  destruct H as [[e H] | [e H]]; rewrite H.
  - reflexivity.
  - destruct (F64.ms start_time); reflexivity.
Qed.

(** The outcome of the call once the audio is decoded and the two cut
    points are non-negative integers. *)
Lemma crop_f64_success (disk : gmap string bytes) (audio_path : string)
    (start_time end_time : float) (output_dir filename : string) (o : outputs)
    (audio : AudioSegment) (start_ms end_ms : Z) :
  load_audio disk audio_path = Ok audio ->
  (forall seg path, export_wav seg path = Ok tt) ->
  F64.ms start_time = Ok start_ms -> F64.ms end_time = Ok end_ms ->
  (0 <= start_ms)%Z -> (0 <= end_ms)%Z ->
  let cropped :=
    take (Z.to_nat (Z.min start_ms (Pydub.len audio))) (units audio)
    ++ drop (Z.to_nat (Z.min end_ms (Pydub.len audio))) (units audio) in
  let mid_point := Z.to_nat (Z.of_nat (length cropped) / 2) in
  let cw_dir := path_join output_dir "Clockwise" in
  let acw_dir := path_join output_dir "Anticlockwise" in
  let cw_path := path_join cw_dir (splitext_root filename ++ "_cw.wav") in
  let acw_path := path_join acw_dir (splitext_root filename ++ "_acw.wav") in
  F64.crop_and_split_audio disk audio_path start_time end_time
    output_dir filename o
  = ({| dirs := {[acw_dir]} ∪ ({[cw_dir]} ∪ dirs o);
        wavs := <[acw_path := Pydub.spawn audio (drop mid_point cropped)]>
                  (<[cw_path := Pydub.spawn audio (take mid_point cropped)]>
                     (wavs o)) |},
     true).
Proof.
  intros Hload Hexport Hs He Hs0 He0. cbv zeta.
  unfold F64.crop_and_split_audio, F64.crop_body, F64.excise_between.
  rewrite Hload, Hs, He. cbn [mbind result_bind].
  rewrite excise_clamps by assumption.
  cbn [mbind result_bind]. rewrite halves_at_midpoint.
  unfold export. rewrite !Hexport. cbn [mbind result_bind].
  reflexivity.
Qed.

(** The two readings of a float agree wherever the conversion of the
    binary64 gives the integer that the rational gives. *)
Lemma crop_f64_agrees (disk : gmap string bytes) (audio_path : string)
    (start_time end_time : float) (s e : Q)
    (output_dir filename : string) (o : outputs) :
  F64.ms start_time = Ok (Py.int (s * 1000)) ->
  F64.ms end_time = Ok (Py.int (e * 1000)) ->
  F64.crop_and_split_audio disk audio_path start_time end_time
    output_dir filename o
  = crop_and_split_audio disk audio_path s e output_dir filename o.
Proof.
  intros Hs He.
  unfold F64.crop_and_split_audio, F64.crop_body, F64.excise_between,
    crop_and_split_audio, crop_body.
  rewrite Hs, He. reflexivity.
Qed.

End SplitterF64Facts.

(** C1, amended: the splitter does not validate the interval.  For
    every recording that decodes and every start and end whose
    conversions [int(t * 1000)] give non-negative integers, in whatever
    order and whether or not they lie within the recording, the two cut
    points are capped at the length of the recording by the slices,
    and, the two exports succeeding, both halves are written and the
    call answers [True].  A time whose conversion raises (the product
    is infinite or not a number) makes the call answer [False] with
    nothing written, as any exception does.  There is no input-range
    error. *)
Theorem splitter_accepts_any_interval `{codec : Codec}
    (disk : gmap string bytes) (audio_path : string)
    (start_time end_time : float) (output_dir filename : string) (o : outputs)
    (audio : AudioSegment) (start_ms end_ms : Z) :
  load_audio disk audio_path = Ok audio ->
  (forall seg path, export_wav seg path = Ok tt) ->
  F64.ms start_time = Ok start_ms -> F64.ms end_time = Ok end_ms ->
  (0 <= start_ms)%Z -> (0 <= end_ms)%Z ->
  let cropped :=
    take (Z.to_nat (Z.min start_ms (Pydub.len audio))) (units audio)
    ++ drop (Z.to_nat (Z.min end_ms (Pydub.len audio))) (units audio) in
  let mid_point := Z.to_nat (Z.of_nat (length cropped) / 2) in
  let cw_dir := path_join output_dir "Clockwise" in
  let acw_dir := path_join output_dir "Anticlockwise" in
  let cw_path := path_join cw_dir (splitext_root filename ++ "_cw.wav") in
  let acw_path := path_join acw_dir (splitext_root filename ++ "_acw.wav") in
  F64.excise_between audio start_time end_time = Ok (Pydub.spawn audio cropped)
  /\ F64.crop_and_split_audio disk audio_path start_time end_time
       output_dir filename o
     = ({| dirs := {[acw_dir]} ∪ ({[cw_dir]} ∪ dirs o);
           wavs := <[acw_path := Pydub.spawn audio (drop mid_point cropped)]>
                     (<[cw_path := Pydub.spawn audio (take mid_point cropped)]>
                        (wavs o)) |},
        true)
  /\ (forall (t : float) (e : exn),
         F64.ms t = Raise e ->
         F64.crop_and_split_audio disk audio_path t end_time
           output_dir filename o = (o, false)
         /\ F64.crop_and_split_audio disk audio_path start_time t
              output_dir filename o = (o, false)).
Proof.
  intros Hload Hexport Hs He Hs0 He0. cbv zeta. split.
  { unfold F64.excise_between. rewrite Hs, He. cbn [mbind result_bind].
    apply excise_clamps; assumption. }
  split.
  { eapply crop_f64_success; eassumption. }
  intros t e Ht. split; apply crop_f64_conversion_failure; eauto.
Qed.

(** The interval (7.0, 5.0) on a recording of 10 ms: both cuts fall at
    the end of the recording, the call answers [True]; with an end so
    large that its product with 1000 overflows it answers [False]. *)
Lemma splitter_accepts_any_interval_witness :
  let disk : gmap string bytes :=
    {[ "uploads/a.wav"%string := repeat "a"%byte 10 ]} in
  snd (F64.crop_and_split_audio (codec := Fixture.codec) disk "uploads/a.wav"
         7 5 "out" "a.wav" no_outputs) = true
  /\ F64.crop_and_split_audio (codec := Fixture.codec) disk "uploads/a.wav"
       7 0x1p+1020 "out" "a.wav" no_outputs = (no_outputs, false).
Proof.
  cbv zeta.
  pose proof (splitter_accepts_any_interval (codec := Fixture.codec)
                {[ "uploads/a.wav"%string := repeat "a"%byte 10 ]} "uploads/a.wav"
                7 5 "out" "a.wav" no_outputs
                {| frame_rate := 44100; units := repeat 97%Z 10 |}
                7000 5000
                eq_refl (fun _ _ => eq_refl) eq_refl eq_refl
                ltac:(lia) ltac:(lia)) as H.
  cbv zeta in H. destruct H as (_ & H & Hfail). split.
  - rewrite H. reflexivity.
  - apply (Hfail 0x1p+1020%float OverflowError). reflexivity.
Defined.

(** C6, as stated, fails: at 44100 Hz, excising (1/1024 s, 1 s) from a
    2-second recording cuts at 0 ms and 1000 ms and removes 44100
    samples, where the sample-accurate cut points, 43 and 44100, are
    44057 samples apart. *)
Lemma excision_is_not_sample_accurate :
  Py.int ((1 # 1024) * 1000) = 0%Z
  /\ sample_cut 44100 (1 # 1024) = 43%Z
  /\ ~ sample_accurate_excision (Fixture.ramp 2000) (1 # 1024) 1.
Proof.
  split; [reflexivity |]. split; [reflexivity |].
  intros (cropped & Hex & Hn).
  vm_compute in Hex. injection Hex as <-.
  vm_compute in Hn. discriminate Hn.
Qed.

(** C6, amended: the excise step converts a and b to whole-millisecond
    cut points, [start_ms = int(a * 1000)] and [end_ms = int(b * 1000)],
    not to sample positions; for an interval that is valid at that
    granularity (0 <= start_ms <= end_ms <= L, L the length of the
    recording in milliseconds) the audio before the first cut followed
    by the audio after the second has exactly the length of the
    recording minus the milliseconds between the two cuts. *)
Theorem excision_length_in_milliseconds (audio : AudioSegment) (a b : float)
    (start_ms end_ms : Z) :
  F64.ms a = Ok start_ms -> F64.ms b = Ok end_ms ->
  (0 <= start_ms)%Z -> (start_ms <= end_ms)%Z ->
  (end_ms <= Pydub.len audio)%Z ->
  exists cropped,
    F64.excise_between audio a b = Ok cropped
    /\ units cropped
       = take (Z.to_nat start_ms) (units audio)
         ++ drop (Z.to_nat end_ms) (units audio)
    /\ Pydub.len cropped = (Pydub.len audio - (end_ms - start_ms))%Z.
Proof.
  intros Ha Hb Hs0 Hse Hel.
  unfold F64.excise_between. rewrite Ha, Hb. cbn [mbind result_bind].
  eexists. split; [apply excise_clamps; lia |].
  rewrite !Z.min_l by lia.
  split; [reflexivity |].
  unfold Pydub.len in *. cbn [Pydub.spawn units].
  rewrite length_app, length_take, length_drop. lia.
Qed.

(** The interval (1/1024 s, 1 s) on a recording of 2 s is cut at 0 ms
    and 1000 ms, and 1000 ms remain. *)
Lemma excision_length_in_milliseconds_witness :
  F64.ms 0x1p-10 = Ok 0%Z
  /\ F64.ms 1 = Ok 1000%Z
  /\ exists cropped,
       F64.excise_between (Fixture.ramp 2000) 0x1p-10 1 = Ok cropped
       /\ Pydub.len cropped = 1000%Z.
Proof.
  split; [reflexivity |]. split; [reflexivity |].
  destruct (excision_length_in_milliseconds (Fixture.ramp 2000) 0x1p-10 1
              0 1000 eq_refl eq_refl
              ltac:(lia) ltac:(lia) ltac:(vm_compute; discriminate))
    as (cropped & Hex & _ & Hlen).
  exists cropped. split; [exact Hex |]. rewrite Hlen. reflexivity.
Defined.

(** C7: the two halves of the post-excision audio are its units
    [0, midpoint) and [midpoint, length) with midpoint = floor(length/2):
    contiguous, non-overlapping, their lengths summing to the length of
    the audio, the second half holding the extra unit of an odd length. *)
Theorem halves_are_contiguous (cropped_audio : AudioSegment) :
  let mid_point := (Pydub.len cropped_audio / 2)%Z in
  exists clockwise anticlockwise,
    halves cropped_audio = Ok (clockwise, anticlockwise)
    /\ units clockwise = take (Z.to_nat mid_point) (units cropped_audio)
    /\ units anticlockwise = drop (Z.to_nat mid_point) (units cropped_audio)
    /\ units clockwise ++ units anticlockwise = units cropped_audio
    /\ Pydub.len clockwise = mid_point
    /\ (Pydub.len clockwise + Pydub.len anticlockwise
        = Pydub.len cropped_audio)%Z
    /\ (Pydub.len anticlockwise - Pydub.len clockwise
        = Pydub.len cropped_audio mod 2)%Z.
Proof.
  cbv zeta. do 2 eexists. split; [apply halves_at_midpoint |].
  cbn [Pydub.spawn units].
  pose proof (len_nonneg cropped_audio) as Hlen.
  pose proof (Z.div_mod (Pydub.len cropped_audio) 2 ltac:(lia)) as Hdm.
  pose proof (Z.mod_pos_bound (Pydub.len cropped_audio) 2 ltac:(lia)) as Hm.
  split; [reflexivity |]. split; [reflexivity |].
  split; [apply take_drop |].
  unfold Pydub.len, Pydub.spawn in *. cbn [units].
  rewrite length_take, length_drop. lia.
Qed.

(** ** File names and the choice of the decoder *)

Lemma after_last_dot_append (stem ext : string) :
  after_last_dot ext = None ->
  after_last_dot (stem ++ String "." ext) = Some ext.
Proof.
  intros Hext. induction stem as [| c stem IH].
  - change (after_last_dot (String "." ext) = Some ext).
    cbn [after_last_dot]. rewrite Hext. reflexivity.
  - change (after_last_dot (String c (stem ++ String "." ext)) = Some ext).
    cbn [after_last_dot]. rewrite IH. reflexivity.
Qed.

Lemma contains_dot_append (stem ext : string) :
  contains_char "." (stem ++ String "." ext) = true.
Proof.
  induction stem as [| c stem IH].
  - reflexivity.
  - change (contains_char "." (String c (stem ++ String "." ext)) = true).
    cbn [contains_char]. rewrite IH. apply orb_true_r.
Qed.

Lemma length_append (s t : string) :
  String.length (s ++ t) = (String.length s + String.length t)%nat.
Proof. induction s as [| c s IH]; simpl; [reflexivity | now rewrite IH]. Qed.

Lemma substring_skip (s t : string) (k m : nat) :
  substring (String.length s + k) m (s ++ t) = substring k m t.
Proof. induction s as [| c s IH]; simpl; [reflexivity | exact IH]. Qed.

(** Whether [stem ++ tail] ends in a suffix as long as [tail] minus one
    character is decided by [tail] alone. *)
Lemma endswith_append (stem tail suffix : string) :
  (String.length suffix <= String.length tail)%nat ->
  endswith (stem ++ tail) suffix = endswith tail suffix.
Proof.
  intros Hlen. unfold endswith. rewrite length_append.
  destruct (Nat.leb_spec (String.length suffix) (String.length tail)); [| lia].
  destruct (Nat.leb_spec (String.length suffix)
                         (String.length stem + String.length tail)); [| lia].
  cbn [andb].
  replace (String.length stem + String.length tail - String.length suffix)%nat
    with (String.length stem + (String.length tail - String.length suffix))%nat
    by lia.
  rewrite substring_skip. reflexivity.
Qed.

(** The upload filter lets FLAC and AAC names through, and none of them
    ends in [.mp3]. *)
Lemma flac_aac_allowed_not_mp3 (stem : string) :
  allowed_file (stem ++ ".flac") = true
  /\ endswith (stem ++ ".flac") ".mp3" = false
  /\ allowed_file (stem ++ ".aac") = true
  /\ endswith (stem ++ ".aac") ".mp3" = false.
Proof.
  unfold allowed_file.
  rewrite (contains_dot_append stem "flac"), (contains_dot_append stem "aac").
  rewrite (after_last_dot_append stem "flac"), (after_last_dot_append stem "aac")
    by reflexivity.
  rewrite (endswith_append stem ".flac" ".mp3"), (endswith_append stem ".aac" ".mp3")
    by (simpl; lia).
  repeat split; reflexivity.
Qed.

(** What [load_audio] does with a file that is on the disk, and with
    one that is not. *)
Lemma load_audio_present `{codec : Codec} (disk : gmap string bytes)
    (audio_path : string) (content : bytes) :
  disk !! audio_path = Some content ->
  load_audio disk audio_path
  = if endswith audio_path ".mp3" then from_mp3 content else from_wav content.
Proof.
  intros H. unfold load_audio, read_file. rewrite H.
  destruct (endswith audio_path ".mp3"); reflexivity.
Qed.

Lemma load_audio_absent `{codec : Codec} (disk : gmap string bytes)
    (audio_path : string) :
  disk !! audio_path = None ->
  load_audio disk audio_path = Raise FileNotFoundError.
Proof.
  intros H. unfold load_audio, read_file. rewrite H.
  destruct (endswith audio_path ".mp3"); reflexivity.
Qed.

(** C10: what the splitter does with a file depends on the decoders
    through one of them only, picked by whether the path ends in
    [.mp3]: the call is decided by [from_mp3] of the file for such a
    path and by [from_wav] of the file for every other path, the
    [.flac] and [.aac] names the upload filter accepts included.  When
    that decoder raises, or the file is missing, the call answers
    [False] for that file, nothing written, and does not raise,
    whatever the two times and the encoder; when it returns an audio,
    the two halves of that audio are what is written and the call
    answers [True] (the two times converting to non-negative
    milliseconds and the exports succeeding). *)
Theorem decoder_chosen_by_mp3_suffix `{codec : Codec}
    (disk : gmap string bytes) (audio_path stem : string) (content : bytes)
    (start_time end_time : float)
    (output_dir filename : string) (o : outputs) :
  disk !! audio_path = Some content ->
  let decoded :=
    if endswith audio_path ".mp3" then from_mp3 content else from_wav content in
  (forall e : exn,
      decoded = Raise e ->
      F64.crop_and_split_audio disk audio_path start_time end_time
        output_dir filename o = (o, false))
  /\ (forall (audio : AudioSegment) (start_ms end_ms : Z),
         decoded = Ok audio ->
         (forall seg path, export_wav seg path = Ok tt) ->
         F64.ms start_time = Ok start_ms -> F64.ms end_time = Ok end_ms ->
         (0 <= start_ms)%Z -> (0 <= end_ms)%Z ->
         let cropped :=
           take (Z.to_nat (Z.min start_ms (Pydub.len audio))) (units audio)
           ++ drop (Z.to_nat (Z.min end_ms (Pydub.len audio))) (units audio) in
         let mid_point := Z.to_nat (Z.of_nat (length cropped) / 2) in
         let cw_dir := path_join output_dir "Clockwise" in
         let acw_dir := path_join output_dir "Anticlockwise" in
         let cw_path :=
           path_join cw_dir (splitext_root filename ++ "_cw.wav") in
         let acw_path :=
           path_join acw_dir (splitext_root filename ++ "_acw.wav") in
         F64.crop_and_split_audio disk audio_path start_time end_time
           output_dir filename o
         = ({| dirs := {[acw_dir]} ∪ ({[cw_dir]} ∪ dirs o);
               wavs :=
                 <[acw_path := Pydub.spawn audio (drop mid_point cropped)]>
                   (<[cw_path := Pydub.spawn audio (take mid_point cropped)]>
                      (wavs o)) |},
            true))
  /\ (allowed_file (stem ++ ".flac") = true
      /\ endswith (stem ++ ".flac") ".mp3" = false
      /\ load_audio disk (stem ++ ".flac")
         = (b ← read_file disk (stem ++ ".flac"); from_wav b))
  /\ (allowed_file (stem ++ ".aac") = true
      /\ endswith (stem ++ ".aac") ".mp3" = false
      /\ load_audio disk (stem ++ ".aac")
         = (b ← read_file disk (stem ++ ".aac"); from_wav b))
  /\ (forall missing : string,
         disk !! missing = None ->
         F64.crop_and_split_audio disk missing start_time end_time
           output_dir filename o = (o, false)).
Proof.
  intros Hfile decoded.
  destruct (flac_aac_allowed_not_mp3 stem) as (Hf1 & Hf2 & Ha1 & Ha2).
  pose proof (load_audio_present disk audio_path content Hfile) as Hload.
  fold decoded in Hload.
  split.
  { intros e He. rewrite He in Hload.
    eapply crop_f64_decode_failure, Hload. }
  split.
  { intros audio start_ms end_ms Hok Hexport Hs He Hs0 He0.
    rewrite Hok in Hload. eapply crop_f64_success; eassumption. }
  split; [split; [exact Hf1 | split; [exact Hf2 |]];
          unfold load_audio; rewrite Hf2; reflexivity |].
  split; [split; [exact Ha1 | split; [exact Ha2 |]];
          unfold load_audio; rewrite Ha2; reflexivity |].
  intros missing Hmissing.
  eapply crop_f64_decode_failure, load_audio_absent, Hmissing.
Qed.

(** The same ten bytes under two names, with a codec whose MP3 decoder
    reads them and whose WAV loader does not: the [.mp3] name is split,
    the [.flac] name fails. *)
Lemma decoder_chosen_by_mp3_suffix_witness :
  let disk : gmap string bytes :=
    {[ "uploads/take1.mp3"%string := repeat "a"%byte 10;
       "uploads/take1.flac"%string := repeat "a"%byte 10 ]} in
  snd (F64.crop_and_split_audio (codec := Fixture.codec_mp3_only) disk
         "uploads/take1.mp3" 5.5 6.5 "out" "take1.mp3" no_outputs) = true
  /\ F64.crop_and_split_audio (codec := Fixture.codec_mp3_only) disk
       "uploads/take1.flac" 5.5 6.5 "out" "take1.flac" no_outputs
     = (no_outputs, false).
Proof.
  cbv zeta. split.
  - pose proof (decoder_chosen_by_mp3_suffix (codec := Fixture.codec_mp3_only)
                  {[ "uploads/take1.mp3"%string := repeat "a"%byte 10;
                     "uploads/take1.flac"%string := repeat "a"%byte 10 ]}
                  "uploads/take1.mp3" "uploads/take1" (repeat "a"%byte 10)
                  5.5 6.5 "out" "take1.mp3" no_outputs eq_refl) as H.
    cbv zeta in H. destruct H as (_ & H & _).
    rewrite (H {| frame_rate := 44100; units := repeat 97%Z 10 |} 5500%Z 6500%Z
               eq_refl (fun _ _ => eq_refl) eq_refl eq_refl
               ltac:(lia) ltac:(lia)).
    reflexivity.
  - pose proof (decoder_chosen_by_mp3_suffix (codec := Fixture.codec_mp3_only)
                  {[ "uploads/take1.mp3"%string := repeat "a"%byte 10;
                     "uploads/take1.flac"%string := repeat "a"%byte 10 ]}
                  "uploads/take1.flac" "uploads/take1" (repeat "a"%byte 10)
                  5.5 6.5 "out" "take1.flac" no_outputs eq_refl) as H.
    cbv zeta in H. destruct H as (H & _).
    apply (H CouldntDecodeError). reflexivity.
Defined.

(** ** The click detector, continued *)




(** An exception of an image operation is an exception of the body. *)
Lemma image_ops_raise `{cv : OpenCV}
    (mel_spec_db : spectrogram) (time_frames : list Q)
    (start_time end_time : Q) (start_idx end_idx : nat) (e : exn) :
  window_indices time_frames start_time end_time = Ok (start_idx, end_idx) ->
  (start_idx < end_idx)%nat ->
  image_ops (map (py_slice start_idx end_idx) mel_spec_db) = Raise e ->
  detect_body mel_spec_db time_frames start_time end_time = Raise e.
Proof.
  unfold window_indices, detect_body, image_ops. intros H Hlt Hops.
  step H as si. step H as ei. injection H as -> ->.
  cbn [mbind result_bind].
  destruct (Nat.leb_spec end_idx start_idx); [lia |].
  destruct (normalize _ _ _) as [roi_normalized |];
    cbn [mbind result_bind] in *;
    [| injection Hops as ->; reflexivity].
  destruct (GaussianBlur _ _ _) as [blurred |];
    cbn [mbind result_bind] in *;
    [| injection Hops as ->; reflexivity].
  destruct (threshold _ _ _) as [[otsu thresh] |];
    cbn [mbind result_bind] in *;
    [| injection Hops as ->; reflexivity].
  destruct (getStructuringElement _) as [kernel |];
    cbn [mbind result_bind] in *;
    [| injection Hops as ->; reflexivity].
  destruct (morphologyEx _ _) as [vertical_structure |];
    cbn [mbind result_bind] in *;
    [| injection Hops as ->; reflexivity].
  rewrite Hops. reflexivity.
Qed.

(** C8: whatever raises inside the [try] block is caught, and the
    detector then returns the coarse window it was given, unchanged; in
    particular when one of the image operations raises on the region of
    interest.  Being a total function into intervals, the detector lets
    no exception out. *)
Theorem detector_catches_every_exception `{cv : OpenCV}
    (mel_spec_db : spectrogram) (time_frames : list Q)
    (start_time end_time : Q) (start_idx end_idx : nat) (e : exn) :
  window_indices time_frames start_time end_time = Ok (start_idx, end_idx) ->
  (start_idx < end_idx)%nat ->
  image_ops (map (py_slice start_idx end_idx) mel_spec_db) = Raise e ->
  detect_switch_noise mel_spec_db time_frames start_time end_time
  = (Some start_time, Some end_time)
  /\ (forall mel axis s t e',
        detect_body mel axis s t = Raise e' ->
        detect_switch_noise mel axis s t = (Some s, Some t)).
Proof.
  intros Hidx Hlt Hops.
  assert (Hall : forall mel axis s t e',
             detect_body mel axis s t = Raise e' ->
             detect_switch_noise mel axis s t = (Some s, Some t)).
  { intros mel axis s t e' H. unfold detect_switch_noise. rewrite H. reflexivity. }
  split; [| exact Hall].
  eapply Hall, image_ops_raise; eassumption.
Qed.

Lemma detector_catches_every_exception_witness :
  image_ops (cv := Fixture.cv_broken)
    (map (py_slice 5 7) (Fixture.flat_spectrogram 13)) = Raise cv2_error
  /\ detect_switch_noise (cv := Fixture.cv_broken)
       (Fixture.flat_spectrogram 13) (Fixture.seconds 13) 5.0 7.0
     = (Some 5.0, Some 7.0).
Proof.
  split; [reflexivity |].
  apply (detector_catches_every_exception (cv := Fixture.cv_broken)
           (Fixture.flat_spectrogram 13) (Fixture.seconds 13) 5.0 7.0
           5 7 cv2_error); [reflexivity | lia | reflexivity].
Defined.

(** ** The request handlers *)

Lemma dict_get_set_eq {V} (k : string) (v : V) (d : dict V) :
  dict_get k (dict_set k v d) = Some v.
Proof.
  induction d as [| [k' v'] d IH]; simpl.
  - rewrite String.eqb_refl. reflexivity.
  - destruct (String.eqb k k') eqn:E; simpl; rewrite ?E, ?String.eqb_refl;
      [reflexivity | exact IH].
Qed.

Lemma in_dict_set {V} (k k0 : string) (v v0 : V) (d : dict V) :
  In (k, v) (dict_set k0 v0 d) -> (k, v) = (k0, v0) \/ In (k, v) d.
Proof.
  induction d as [| [k' v'] d IH]; simpl.
  - intros [H | []]. left. congruence.
  - destruct (String.eqb k0 k'); simpl.
    + intros [H | H]; [left; congruence | right; right; exact H].
    + intros [H | H]; [right; left; exact H |].
      destruct (IH H) as [H' | H']; [left; exact H' | right; right; exact H'].
Qed.

Section HandlerFacts.

Context `{cv : OpenCV} `{codec : Codec} `{rosa : Librosa} `{wz : Werkzeug}.

(** The upload loop reads and writes nothing but the batch state. *)
Lemma upload_loop_view (clock : nat -> string) (files : list FileStorage) :
  forall (i : nat) (st st' : state) (results : list row)
         (intervals : list interval),
    batch_view st = batch_view st' ->
    batch_view (fst (upload_loop clock i files st results intervals))
    = batch_view (fst (upload_loop clock i files st' results intervals))
    /\ snd (upload_loop clock i files st results intervals)
       = snd (upload_loop clock i files st' results intervals).
Proof.
  induction files as [| file rest IH]; intros i st st' results intervals Hview.
  - simpl. split; [exact Hview | reflexivity].
  - destruct st as [bd sc up sp out], st' as [bd' sc' up' sp' out'].
    unfold batch_view in Hview. cbn [batch_data spectrogram_cache
      upload_folder spectrogram_folder] in Hview.
    injection Hview as <- <- <- <-.
    cbn [upload_loop batch_data spectrogram_cache upload_folder
         spectrogram_folder output_folder].
    destruct (negb _ && _); [| apply IH; reflexivity].
    destruct (generate_mel_spectrogram _ _ _ _) as [pictures [[[mel tf] rate] |]];
      [| apply IH; reflexivity].
    destruct (detect_switch_noise mel tf 5.0 7.0) as [start_time end_time].
    destruct (mbind _ _) as [r | e]; [apply IH; reflexivity |].
    split; reflexivity.
Qed.

(** The upload loop leaves the output folder alone. *)
Lemma upload_loop_output (clock : nat -> string) (files : list FileStorage) :
  forall (i : nat) (st : state) (results : list row) (intervals : list interval),
    output_folder (fst (upload_loop clock i files st results intervals))
    = output_folder st.
Proof.
  induction files as [| file rest IH]; intros i st results intervals.
  - reflexivity.
  - cbn [upload_loop].
    destruct (negb _ && _); [| apply IH].
    destruct (generate_mel_spectrogram _ _ _ _) as [pictures [[[mel tf] rate] |]];
      [| rewrite IH; reflexivity].
    destruct (detect_switch_noise mel tf 5.0 7.0) as [start_time end_time].
    destruct (mbind _ _) as [r | e]; [rewrite IH; reflexivity | reflexivity].
Qed.

(** Every entry of [batch_data] after the loop was there before or was
    made from a file of the list. *)
Lemma upload_loop_entries (clock : nat -> string) (files : list FileStorage) :
  forall (i : nat) (st : state) (results : list row) (intervals : list interval)
         (k : string) (fd : file_data),
    In (k, fd)
       (batch_data (fst (upload_loop clock i files st results intervals))) ->
    In (k, fd) (batch_data st)
    \/ made_from (fun j => clock (i + j)%nat) files k fd.
Proof.
  induction files as [| file rest IH]; intros i st results intervals k fd Hin.
  - left. exact Hin.
  - assert (Hlater : forall k fd,
              made_from (fun j => clock (S i + j)%nat) rest k fd ->
              made_from (fun j => clock (i + j)%nat) (file :: rest) k fd).
    { intros k0 fd0 (j & f & Hj & Hrest). exists (S j), f.
      split; [exact Hj |]. replace (i + S j)%nat with (S i + j)%nat by lia.
      exact Hrest. }
    cbn [upload_loop] in Hin.
    destruct (negb _ && allowed_file _) eqn:Hcond.
    2:{ destruct (IH _ _ _ _ _ _ Hin) as [H | H]; [left; exact H | right; auto]. }
    apply andb_prop in Hcond as [_ Hallowed].
    destruct (generate_mel_spectrogram _ _ _ _) as [pictures [[[mel tf] rate] |]].
    2:{ destruct (IH _ _ _ _ _ _ Hin) as [H | H]; [left; exact H | right; auto]. }
    destruct (detect_switch_noise mel tf 5.0 7.0) as [start_time end_time].
    assert (Hnew : forall k fd,
              In (k, fd)
                 (dict_set (clock i ++ secure_filename (fs_filename file))%string
                    {| filename := secure_filename (fs_filename file);
                       unique_filename :=
                         (clock i ++ secure_filename (fs_filename file))%string;
                       file_path :=
                         path_join UPLOAD_FOLDER
                           (clock i ++ secure_filename (fs_filename file));
                       spec_image_path :=
                         path_join SPECTROGRAM_FOLDER
                           ((clock i ++ secure_filename (fs_filename file))
                            ++ ".png");
                       detected_interval := (start_time, end_time);
                       duration := duration_of tf |}
                    (batch_data st)) ->
              In (k, fd) (batch_data st)
              \/ made_from (fun j => clock (i + j)%nat) (file :: rest) k fd).
    { intros k0 fd0 H0. apply in_dict_set in H0 as [H0 | H0]; [| left; exact H0].
      right. injection H0 as -> ->. exists O, file.
      rewrite Nat.add_0_r. repeat split; auto. }
    destruct (mbind _ _) as [r | e].
    + destruct (IH _ _ _ _ _ _ Hin) as [H | H]; [| right; auto].
      apply Hnew. exact H.
    + apply Hnew. exact Hin.
Qed.

(** The split loop counts every entry once. *)
Lemma split_loop_counts (disk : gmap string bytes) (start_time end_time : Q)
    (output_dir : string) (entries : dict file_data) :
  forall (o : outputs) (processed_files failed_files : list string),
    let '(_, p, f) :=
      split_loop disk start_time end_time output_dir entries o
        processed_files failed_files in
    (length p + length f
     = length processed_files + length failed_files + length entries)%nat.
Proof.
  induction entries as [| [k fd] rest IH]; intros o p f.
  - simpl. lia.
  - cbn [split_loop].
    destruct (crop_and_split_audio _ _ _ _ _ _ _) as [o' success].
    destruct success.
    + specialize (IH o' (p ++ [filename fd]) f).
      destruct (split_loop _ _ _ _ _ _ _ _) as [[o2 p2] f2].
      rewrite length_app in IH. simpl in *. lia.
    + specialize (IH o' p (f ++ [filename fd])).
      destruct (split_loop _ _ _ _ _ _ _ _) as [[o2 p2] f2].
      rewrite length_app in IH. simpl in *. lia.
Qed.

(** An upload that answers with a list of files got past the two
    early returns. *)
Lemma uploaded_selects_files (clock : nat -> string)
    (request_files : option (list FileStorage)) (st : state)
    (rows : list row) (average : Q * Q) (total : nat) :
  snd (upload_files clock request_files st) = Uploaded rows average total ->
  exists files, request_files = Some files /\ selects_files files = true.
Proof.
  unfold upload_files. destruct request_files as [files |]; [| discriminate].
  destruct (selects_files files) eqn:Hsel; [| discriminate].
  intros _. exists files. split; [reflexivity | exact Hsel].
Qed.

(** Past the early returns, what an upload leaves in the batch state
    and what it answers do not depend on the state it started from. *)
Lemma upload_files_fresh (clock : nat -> string) (files : list FileStorage)
    (st st' : state) :
  selects_files files = true ->
  batch_view (fst (upload_files clock (Some files) st))
  = batch_view (fst (upload_files clock (Some files) st'))
  /\ snd (upload_files clock (Some files) st)
     = snd (upload_files clock (Some files) st').
Proof.
  intros Hsel. unfold upload_files. rewrite Hsel. cbn [negb].
  destruct (upload_loop_view clock files 0 (cleared st) (cleared st') [] []
              eq_refl) as [Hv Hr].
  destruct (upload_loop clock 0 files (cleared st) [] []) as [s1 r1].
  destruct (upload_loop clock 0 files (cleared st') [] []) as [s2 r2].
  cbn [fst snd] in Hv, Hr. subst r2.
  destruct r1 as [[results intervals] | e]; [| split; [exact Hv | reflexivity]].
  destruct results; split; solve [exact Hv | reflexivity].
Qed.

(** [process_batch] reads the batch state only, and does not change
    [batch_data]. *)
Lemma process_batch_reads_batch (timestamp : string) (data : option (Q * Q))
    (st st' : state) :
  batch_view st = batch_view st' ->
  snd (process_batch timestamp data st) = snd (process_batch timestamp data st')
  /\ batch_view (fst (process_batch timestamp data st)) = batch_view st.
Proof.
  intros Hview. unfold batch_view in Hview.
  injection Hview as Hbd Hsc Hup Hsp.
  unfold process_batch. destruct data as [[start_time end_time] |].
  - rewrite <- Hbd, <- Hup.
    destruct (split_loop _ _ _ _ _ _ _ _) as [[o p] f].
    split; reflexivity.
  - split; reflexivity.
Qed.

End HandlerFacts.

Section BatchGenerations.

Context `{cv : OpenCV} `{codec : Codec} `{rosa : Librosa} `{wz : Werkzeug}.

(** The archive a split produces is made from the batch state only. *)
Lemma process_batch_archive (timestamp : string) (start_time end_time : Q)
    (st st' : state) :
  batch_view st = batch_view st' ->
  let zip_path :=
    path_join OUTPUT_FOLDER ("processed_audio_" ++ timestamp ++ ".zip") in
  output_folder (fst (process_batch timestamp (Some (start_time, end_time)) st))
    !! zip_path
  = output_folder (fst (process_batch timestamp (Some (start_time, end_time)) st'))
      !! zip_path.
Proof.
  intros Hview. unfold batch_view in Hview.
  injection Hview as Hbd Hsc Hup Hsp.
  cbv zeta. unfold process_batch. rewrite <- Hbd, <- Hup.
  destruct (split_loop _ _ _ _ _ _ _ _) as [[o p] f].
  cbn [fst output_folder]. rewrite !lookup_insert_eq. reflexivity.
Qed.

Lemma process_batch_counts (timestamp : string) (start_time end_time : Q)
    (st : state) :
  exists zip_filename processed failed,
    snd (process_batch timestamp (Some (start_time, end_time)) st)
    = Processed zip_filename processed failed
    /\ (processed + failed = length (batch_data st))%nat.
Proof.
  unfold process_batch.
  pose proof (split_loop_counts (upload_folder st) start_time end_time
                (path_join OUTPUT_FOLDER ("batch_" ++ timestamp))
                (batch_data st) no_outputs [] []) as H.
  destruct (split_loop _ _ _ _ _ _ _ _) as [[o p] f].
  do 3 eexists. split; [reflexivity |]. simpl in H. lia.
Qed.

(** C9: whatever requests were served before, an upload that succeeds
    starts from an emptied batch state ([batch_data] and
    [spectrogram_cache] empty, upload and spectrogram folders wiped),
    so that the batch state it leaves and the consensus it answers are
    those of the same upload on a fresh application; every entry of
    [batch_data] was made from a file of this request; and a later
    [process_batch] splits exactly these entries, with the same answer
    and the same archive as on a fresh application, leaving the batch
    state as it was. *)
Theorem upload_starts_a_fresh_batch
    (history : list request) (clock : nat -> string)
    (request_files : option (list FileStorage))
    (rows : list row) (average : Q * Q) (total : nat)
    (timestamp : string) (start_time end_time : Q) :
  let before := run initial_state history in
  snd (upload_files clock request_files before) = Uploaded rows average total ->
  let after := fst (upload_files clock request_files before) in
  let fresh := fst (upload_files clock request_files initial_state) in
  let split := process_batch timestamp (Some (start_time, end_time)) in
  let zip_path :=
    path_join OUTPUT_FOLDER ("processed_audio_" ++ timestamp ++ ".zip") in
  batch_view (cleared before) = ([], [], ∅, ∅)
  /\ batch_view after = batch_view fresh
  /\ snd (upload_files clock request_files initial_state)
     = Uploaded rows average total
  /\ (exists files,
        request_files = Some files
        /\ forall k fd, In (k, fd) (batch_data after) -> made_from clock files k fd)
  /\ output_folder after = output_folder before
  /\ snd (split after) = snd (split fresh)
  /\ output_folder (fst (split after)) !! zip_path
     = output_folder (fst (split fresh)) !! zip_path
  /\ batch_view (fst (split after)) = batch_view after
  /\ exists zip_filename processed failed,
       snd (split after) = Processed zip_filename processed failed
       /\ (processed + failed = length (batch_data after))%nat.
Proof.
  intros before Hup after fresh split zip_path.
  destruct (uploaded_selects_files _ _ _ _ _ _ Hup) as (files & -> & Hsel).
  destruct (upload_files_fresh clock files before initial_state Hsel)
    as [Hview Hresp].
  split; [reflexivity |].
  split; [exact Hview |].
  split; [rewrite <- Hresp; exact Hup |].
  split.
  { exists files. split; [reflexivity |]. intros k fd Hin.
    subst after. unfold upload_files in Hin. rewrite Hsel in Hin.
    cbn [negb] in Hin.
    pose proof (upload_loop_entries clock files 0 (cleared before) [] [] k fd)
      as Hentries.
    destruct (upload_loop clock 0 files (cleared before) [] []) as [s r].
    assert (Hs : In (k, fd) (batch_data s)).
    { destruct r as [[results intervals] | e]; [destruct results |]; exact Hin. }
    destruct (Hentries Hs) as [[] | Hmade]. exact Hmade. }
  split.
  { subst after. unfold upload_files. rewrite Hsel. cbn [negb].
    pose proof (upload_loop_output clock files 0 (cleared before) [] []) as Hout.
    destruct (upload_loop clock 0 files (cleared before) [] []) as [s r].
    destruct r as [[results intervals] | e]; [destruct results |]; exact Hout. }
  split; [exact (proj1 (process_batch_reads_batch _ _ _ _ Hview)) |].
  split; [apply process_batch_archive, Hview |].
  split; [exact (proj2 (process_batch_reads_batch _ _ after after eq_refl)) |].
  apply process_batch_counts.
Qed.

End BatchGenerations.

(** A first batch is uploaded and split; a second upload then leaves
    exactly what it would leave on a fresh application. *)
Lemma upload_starts_a_fresh_batch_witness :
  let history :=
    [Upload (Fixture.clock_at "t0_") (Some [Fixture.file_of "old.wav" 13]);
     ProcessBatch "t0" (Some (5.5, 6.5))] in
  let upload :=
    upload_files (cv := Fixture.cv_flat) (rosa := Fixture.rosa) (wz := Fixture.wz)
      (Fixture.clock_at "t1_") (Some [Fixture.file_of "new.wav" 13]) in
  batch_view
    (fst (upload (run (cv := Fixture.cv_flat) (codec := Fixture.codec)
                      (rosa := Fixture.rosa) (wz := Fixture.wz)
                      initial_state history)))
  = batch_view (fst (upload initial_state)).
Proof.
  cbv zeta.
  eapply (upload_starts_a_fresh_batch (cv := Fixture.cv_flat)
            (codec := Fixture.codec) (rosa := Fixture.rosa) (wz := Fixture.wz)
            [Upload (Fixture.clock_at "t0_") (Some [Fixture.file_of "old.wav" 13]);
             ProcessBatch "t0" (Some (5.5, 6.5))]
            (Fixture.clock_at "t1_") (Some [Fixture.file_of "new.wav" 13])
            _ _ _ "t1" 5.5 6.5).
  vm_compute. reflexivity.
Defined.

Section DegenerateWindow.

Context `{cv : OpenCV} `{codec : Codec} `{rosa : Librosa} `{wz : Werkzeug}.

(** The loop over the files of a request, once it is through the files
    [before], goes on with the rest from where they left it. *)
Lemma upload_loop_app (clock : nat -> string)
    (before rest : list FileStorage) :
  forall (i : nat) (st : state) (results : list row) (intervals : list interval)
         (st1 : state) (results1 : list row) (intervals1 : list interval),
    upload_loop clock i before st results intervals
    = (st1, Ok (results1, intervals1)) ->
    upload_loop clock i (before ++ rest) st results intervals
    = upload_loop clock (i + length before) rest st1 results1 intervals1.
Proof.
  induction before as [| file before' IH];
    intros i st results intervals st1 results1 intervals1 H.
  - cbn [upload_loop] in H. injection H as <- <- <-.
    cbn [app length]. rewrite Nat.add_0_r. reflexivity.
  - cbn [app length]. rewrite Nat.add_succ_r, <- Nat.add_succ_l.
    cbn [upload_loop] in H |- *.
    destruct (negb _ && _); [| apply IH, H].
    destruct (generate_mel_spectrogram _ _ _ _) as [pictures [[[mel tf] rate] |]];
      [| apply IH, H].
    destruct (detect_switch_noise mel tf 5.0 7.0) as [start_time end_time].
    destruct (mbind _ _) as [r | e]; [apply IH, H | discriminate H].
Qed.

(** C5: a coarse window whose bounds resolve to frame indices with the
    start index not strictly before the end index makes the detector
    answer "no detection", the pair [(None, None)].  The upload handler
    does not fall back on the coarse window: as soon as its loop
    reaches such a file (after the files [before], whatever they are),
    it records [(None, None)] for the file and then raises [TypeError]
    on [round(None, 2)], outside any [try]: the request fails, and the
    aggregator is not reached. *)
Theorem degenerate_window_aborts_upload
    (clock : nat -> string) (before : list FileStorage) (file : FileStorage)
    (rest : list FileStorage) (st reached : state)
    (results : list row) (intervals : list interval)
    (pictures : gmap string bytes)
    (mel_spec_db : spectrogram) (time_frames : list Q) (rate : Z)
    (start_idx end_idx : nat) :
  let unique_filename :=
    (clock (length before) ++ secure_filename (fs_filename file))%string in
  let file_path := path_join UPLOAD_FOLDER unique_filename in
  upload_loop clock 0 before (cleared st) [] []
  = (reached, Ok (results, intervals)) ->
  fs_filename file <> ""%string ->
  allowed_file (fs_filename file) = true ->
  generate_mel_spectrogram
    (<[file_path := fs_content file]> (upload_folder reached)) file_path
    (Some (path_join SPECTROGRAM_FOLDER (unique_filename ++ ".png")))
    (spectrogram_folder reached)
  = (pictures, Some (mel_spec_db, time_frames, rate)) ->
  window_indices time_frames 5.0 7.0 = Ok (start_idx, end_idx) ->
  (end_idx <= start_idx)%nat ->
  let request := upload_files clock (Some (before ++ file :: rest)) st in
  detect_switch_noise mel_spec_db time_frames 5.0 7.0 = (None, None)
  /\ snd request = Uncaught TypeError
  /\ detected_interval <$> dict_get unique_filename (batch_data (fst request))
     = Some (None, None)
  /\ detected_interval <$> dict_get unique_filename (batch_data (fst request))
     <> Some (Some 5.0, Some 7.0).
Proof.
  intros unique_filename file_path Hbefore Hname Hallowed Hgen Hidx Hle request.
  pose proof (degenerate_window_detects_nothing mel_spec_db time_frames
                5.0 7.0 start_idx end_idx Hidx Hle) as Hdet.
  split; [exact Hdet |].
  assert (Hnonempty : String.eqb (fs_filename file) "" = false)
    by (apply String.eqb_neq, Hname).
  assert (Hselects : selects_files (before ++ file :: rest) = true).
  { unfold selects_files. rewrite forallb_app. cbn [forallb].
    rewrite Hnonempty. rewrite andb_false_r.
    destruct (before ++ file :: rest) eqn:E; [| reflexivity].
    destruct before; discriminate E. }
  assert (Hrun : request
                 = (fst request, Uncaught TypeError)
                   /\ detected_interval
                        <$> dict_get unique_filename (batch_data (fst request))
                      = Some (None, None)).
  { subst request. unfold upload_files. rewrite Hselects. cbn [negb].
    rewrite (upload_loop_app clock before (file :: rest) _ _ _ _ _ _ _ Hbefore).
    cbn [Nat.add upload_loop].
    rewrite Hnonempty, Hallowed. cbn [negb andb].
    fold unique_filename. fold file_path. rewrite Hgen, Hdet.
    cbn [round2_value mbind result_bind fst batch_data].
    rewrite dict_get_set_eq. split; reflexivity. }
  destruct Hrun as [Hanswer Hentry].
  split; [rewrite Hanswer; reflexivity |].
  split; [exact Hentry |].
  rewrite Hentry. discriminate.
Qed.

End DegenerateWindow.

(** A recording of 3 seconds, uploaded after a recording of 13 seconds:
    both bounds of the window 5.0-7.0 resolve to the last frame of the
    short one, and the request fails. *)
Lemma degenerate_window_aborts_upload_witness :
  let request :=
    upload_files (cv := Fixture.cv_flat) (rosa := Fixture.rosa) (wz := Fixture.wz)
      (Fixture.clock_at "t_")
      (Some [Fixture.file_of "long.wav" 13; Fixture.file_of "short.wav" 3])
      initial_state in
  detect_switch_noise (cv := Fixture.cv_flat)
    (Fixture.flat_spectrogram 3) (Fixture.seconds 3) 5.0 7.0 = (None, None)
  /\ snd request = Uncaught TypeError
  /\ detected_interval <$> dict_get "t_short.wav" (batch_data (fst request))
     = Some (None, None).
Proof.
  cbv zeta.
  epose proof (degenerate_window_aborts_upload (cv := Fixture.cv_flat)
                 (rosa := Fixture.rosa) (wz := Fixture.wz)
                 (Fixture.clock_at "t_") [Fixture.file_of "long.wav" 13]
                 (Fixture.file_of "short.wav" 3) [] initial_state
                 _ _ _ _ _ _ _ 2 2) as H.
  edestruct H as (Hdet & Hanswer & Hentry & _).
  - vm_compute. reflexivity.
  - discriminate.
  - reflexivity.
  - vm_compute. reflexivity.
  - reflexivity.
  - lia.
  - cbv zeta in Hanswer, Hentry. split; [exact Hdet |].
    split; [exact Hanswer | exact Hentry].
Defined.

(** * Further properties of the code *)

(** ** [np.argmin] and the frame nearest to a bound *)

Lemma lookup_map {A B} (f : A -> B) (l : list A) (i : nat) :
  map f l !! i = f <$> l !! i.
Proof.
  revert i. induction l as [| x l IH]; intros [| i]; simpl; auto.
Qed.

Lemma argmin_from_first_minimum (l : list Q) :
  forall (pre : list Q) (best_i : nat) (best : Q),
    pre !! best_i = Some best ->
    (forall j x, pre !! j = Some x -> best <= x) ->
    (forall j x, (j < best_i)%nat -> pre !! j = Some x -> best < x) ->
    first_minimum (pre ++ l) (argmin_from best_i best (length pre) l).
Proof.
  induction l as [| x l IH]; intros pre best_i best Hbest Hmin Hfirst.
  - rewrite app_nil_r. exists best. auto.
  - cbn [argmin_from].
    replace (pre ++ x :: l) with ((pre ++ [x]) ++ l)
      by (rewrite <- app_assoc; reflexivity).
    replace (S (length pre)) with (length (pre ++ [x]))
      by (rewrite length_app; simpl; lia).
    destruct (Py.ltb x best) eqn:E.
    + apply ltb_lt in E. apply IH.
      * rewrite lookup_app_r by lia. rewrite Nat.sub_diag. reflexivity.
      * intros j y Hj. apply lookup_app_Some in Hj as [Hj | [_ Hj]].
        -- specialize (Hmin j y Hj). lra.
        -- apply list_lookup_singleton_Some in Hj as [_ <-]. lra.
      * intros j y Hlt Hj. rewrite lookup_app_l in Hj by lia.
        specialize (Hmin j y Hj). lra.
    + apply ltb_ge in E. apply IH.
      * apply lookup_app_l_Some, Hbest.
      * intros j y Hj. apply lookup_app_Some in Hj as [Hj | [_ Hj]].
        -- apply (Hmin j y Hj).
        -- apply list_lookup_singleton_Some in Hj as [_ <-]. exact E.
      * intros j y Hlt Hj.
        assert (best_i < length pre)%nat by (eapply lookup_lt_Some, Hbest).
        rewrite lookup_app_l in Hj by lia. apply (Hfirst j y Hlt Hj).
Qed.

(** [np.argmin] raises on the empty array only, and otherwise returns
    the first index at which the array is smallest. *)
Lemma np_argmin_first_minimum (a : list Q) :
  (np_argmin a = Raise ValueError <-> a = [])
  /\ (forall e, np_argmin a = Raise e -> a = [])
  /\ (a <> [] -> exists r, np_argmin a = Ok r /\ first_minimum a r).
Proof.
  destruct a as [| x l].
  - split; [split; reflexivity |]. split; [reflexivity | congruence].
  - split; [split; discriminate |]. split; [discriminate |].
    intros _. eexists. split; [reflexivity |].
    apply (argmin_from_first_minimum l [x] 0%nat x).
    + reflexivity.
    + intros j y Hj. apply list_lookup_singleton_Some in Hj as [_ <-]. lra.
    + intros j y Hlt. lia.
Qed.

Lemma np_argmin_ok (a : list Q) (r : nat) :
  np_argmin a = Ok r -> first_minimum a r.
Proof.
  intros H. destruct (np_argmin_first_minimum a) as (_ & _ & Hok).
  destruct a as [| x l]; [discriminate |].
  destruct (Hok ltac:(discriminate)) as (r' & Hr' & Hmin). congruence.
Qed.

Lemma abs_diff_lookup (time_frames : list Q) (t : Q) (j : nat) (d : Q) :
  abs_diff time_frames t !! j = Some d ->
  exists x, time_frames !! j = Some x /\ d = Qabs (x - t).
Proof.
  unfold abs_diff. rewrite lookup_map.
  destruct (time_frames !! j) as [x |]; simpl; [| discriminate].
  intros [= <-]. eauto.
Qed.

Lemma abs_diff_lookup_2 (time_frames : list Q) (t : Q) (j : nat) (x : Q) :
  time_frames !! j = Some x ->
  abs_diff time_frames t !! j = Some (Qabs (x - t)).
Proof. intros H. unfold abs_diff. rewrite lookup_map, H. reflexivity. Qed.

(** The absolute value, opened into its two linear cases. *)
Ltac open_abs :=
  repeat match goal with
  | H : context [Qabs ?x] |- _ =>
      let E := fresh "E" in
      let a := fresh "a" in
      (destruct (Qlt_le_dec x 0);
       [ pose proof (Qabs_neg x ltac:(lra)) as E
       | pose proof (Qabs_pos x ltac:(lra)) as E ]);
      set (a := Qabs x) in *; clearbody a
  end.

Lemma window_indices_ok (time_frames : list Q) (start_time end_time : Q)
    (start_idx end_idx : nat) :
  window_indices time_frames start_time end_time = Ok (start_idx, end_idx) ->
  first_minimum (abs_diff time_frames start_time) start_idx
  /\ first_minimum (abs_diff time_frames end_time) end_idx.
Proof.
  unfold window_indices. intros H.
  step H as si. step H as ei. injection H as -> ->.
  split; apply np_argmin_ok; assumption.
Qed.


Lemma window_indices_nonempty (time_frames : list Q) (start_time end_time : Q) :
  time_frames <> [] ->
  exists start_idx end_idx,
    window_indices time_frames start_time end_time = Ok (start_idx, end_idx).
Proof.
  intros H. destruct time_frames as [| x l]; [congruence |].
  do 2 eexists. reflexivity.
Qed.





Lemma seconds_lookup (n i : nat) (x : Q) :
  Fixture.seconds n !! i = Some x -> x = inject_Z (Z.of_nat i).
Proof.
  unfold Fixture.seconds. rewrite lookup_map.
  destruct (seq 0 n !! i) as [k |] eqn:E; simpl; [| discriminate].
  apply lookup_seq in E as [-> _]. intros [= <-]. reflexivity.
Qed.

Lemma seconds_increasing (n : nat) : increasing (Fixture.seconds n).
Proof.
  intros i j x y Hlt Hi Hj.
  apply seconds_lookup in Hi as ->. apply seconds_lookup in Hj as ->.
  rewrite <- Zlt_Qlt. lia.
Qed.



(** On an axis that always goes forward, the frame nearest to a bound at
    or past the last frame is the last frame. *)
Lemma nearest_frame_past_the_end (time_frames : list Q) (t t_last : Q) (r : nat) :
  increasing time_frames ->
  last time_frames = Some t_last ->
  t_last <= t ->
  first_minimum (abs_diff time_frames t) r ->
  r = pred (length time_frames).
Proof.
  intros Hinc Hlast Hle (m & Hr & Hmin & _).
  rewrite last_lookup in Hlast.
  apply abs_diff_lookup in Hr as (x & Hx & ->).
  pose proof (lookup_lt_Some _ _ _ Hx) as Hlt.
  destruct (decide (r = pred (length time_frames))) as [| Hne]; [assumption |].
  exfalso.
  assert (Hrl : (r < pred (length time_frames))%nat) by lia.
  pose proof (Hinc _ _ _ _ Hrl Hx Hlast) as H1.
  pose proof (Hmin _ _ (abs_diff_lookup_2 _ t _ _ Hlast)) as H2.
  open_abs; lra.
Qed.

(** On an axis that always goes forward and ends at or before both
    bounds, both bounds resolve to the last frame. *)
Lemma short_recording_window (time_frames : list Q)
    (start_time end_time t_last : Q) :
  increasing time_frames ->
  last time_frames = Some t_last ->
  t_last <= start_time -> t_last <= end_time ->
  window_indices time_frames start_time end_time
  = Ok (pred (length time_frames), pred (length time_frames)).
Proof.
  intros Hinc Hlast Hs He.
  assert (Hne : time_frames <> []) by (intros ->; discriminate).
  destruct (window_indices_nonempty time_frames start_time end_time Hne)
    as (si & ei & Hidx).
  destruct (window_indices_ok _ _ _ _ _ Hidx) as [Hsi Hei].
  apply (nearest_frame_past_the_end _ _ _ _ Hinc Hlast Hs) in Hsi.
  apply (nearest_frame_past_the_end _ _ _ _ Hinc Hlast He) in Hei.
  subst si ei. exact Hidx.
Qed.



(** ** The largest contour *)

Lemma max_loop_first_largest `{cv : OpenCV} (l : list contour) :
  forall (seen : list contour) (best : contour) (best_key : Q) (c : contour),
    first_largest seen best best_key ->
    max_loop best best_key l = Ok c ->
    exists k, first_largest (seen ++ l) c k.
Proof.
  induction l as [| x l IH]; intros seen best best_key c Hbest Hloop.
  - cbn in Hloop. injection Hloop as <-. rewrite app_nil_r. eauto.
  - cbn [max_loop] in Hloop.
    destruct (contourArea x) as [k |] eqn:Hk;
      cbn [mbind result_bind] in Hloop; [| discriminate].
    replace (seen ++ x :: l) with ((seen ++ [x]) ++ l)
      by (rewrite <- app_assoc; reflexivity).
    destruct Hbest as (before & after & -> & Hkey & Hbefore & Hafter).
    destruct (Py.ltb best_key k) eqn:E.
    + apply ltb_lt in E. apply (IH _ x k c); [| exact Hloop].
      exists (before ++ best :: after), []. split; [reflexivity |].
      split; [exact Hk |]. split; [| intros c' []].
      intros c' Hin. apply in_app_or in Hin as [Hin | [<- | Hin]].
      * destruct (Hbefore c' Hin) as (k' & Hk' & Hlt). exists k'. split; [exact Hk' | lra].
      * exists best_key. split; [exact Hkey | exact E].
      * destruct (Hafter c' Hin) as (k' & Hk' & Hle). exists k'. split; [exact Hk' | lra].
    + apply ltb_ge in E. apply (IH _ best best_key c); [| exact Hloop].
      exists before, (after ++ [x]). split; [rewrite <- app_assoc; reflexivity |].
      split; [exact Hkey |]. split; [exact Hbefore |].
      intros c' Hin. apply in_app_or in Hin as [Hin | [<- | []]].
      * apply Hafter, Hin.
      * exists k. split; [exact Hk | exact E].
Qed.

(** X4: when [max(contours, key=cv2.contourArea)] returns, it returns a
    contour of the list whose area no other contour exceeds, and the
    first such contour: every contour before it is strictly smaller.
    It raises on an empty list. *)
Theorem max_by_area_first_largest `{cv : OpenCV}
    (contours : list contour) (c : contour) :
  max_by_area contours = Ok c ->
  contours <> []
  /\ In c contours
  /\ exists k, first_largest contours c k.
Proof.
  intros H. destruct contours as [| x l]; [discriminate |].
  cbn [max_by_area] in H.
  destruct (contourArea x) as [k |] eqn:Hk;
    cbn [mbind result_bind] in H; [| discriminate].
  destruct (max_loop_first_largest l [x] x k c) as (kc & Hkc).
  - exists [], []. split; [reflexivity |]. split; [exact Hk |].
    split; intros c' [].
  - exact H.
  - split; [discriminate |]. split; [| exists kc; exact Hkc].
    destruct Hkc as (before & after & Heq & _).
    change ([x] ++ l) with (x :: l) in Heq. rewrite Heq.
    apply in_or_app. right. left. reflexivity.
Qed.

Lemma max_by_area_first_largest_witness :
  In (2, 0, 3, 128)%Z [(0, 0, 1, 128); (2, 0, 3, 128); (7, 0, 3, 128)]%Z.
Proof.
  apply (max_by_area_first_largest
           (cv := Fixture.cv_with (Ok []))
           [(0, 0, 1, 128); (2, 0, 3, 128); (7, 0, 3, 128)]%Z
           (2, 0, 3, 128)%Z).
  reflexivity.
Defined.

(** ** From the detector to the consensus *)

Lemma clamped_well_separated (i : interval) : clamped i -> well_separated i.
Proof.
  destruct i as [[s |] [e |]]; simpl; try tauto.
Qed.

(** What the detector answers on the default window. *)
Lemma default_window_well_separated `{cv : OpenCV}
    (mel_spec_db : spectrogram) (time_frames : list Q) :
  well_separated (detect_switch_noise mel_spec_db time_frames 5.0 7.0).
Proof.
  pose proof (detect_cases mel_spec_db time_frames 5.0 7.0) as H.
  cbv zeta in H. destruct H as [-> | [-> | H]].
  - exact I.
  - simpl. repeat split; lra.
  - apply clamped_well_separated, H.
Qed.

(** X5: on the default window 5.0-7.0 the detector answers either "no
    detection" or a start of at least 4.5 s followed, at least half a
    second later, by an end of at most 7.5 s; on any window it never
    answers an interval with only one bound. *)
Theorem detector_default_window_shape `{cv : OpenCV}
    (mel_spec_db : spectrogram) (time_frames : list Q) :
  well_separated (detect_switch_noise mel_spec_db time_frames 5.0 7.0)
  /\ forall start_time end_time,
       detector_shaped
         (detect_switch_noise mel_spec_db time_frames start_time end_time).
Proof.
  split; [apply default_window_well_separated |].
  intros start_time end_time.
  pose proof (detect_cases mel_spec_db time_frames start_time end_time) as H.
  cbv zeta in H. destruct H as [-> | [-> | H]]; try exact I.
  destruct (detect_switch_noise _ _ _ _) as [[s |] [e |]]; simpl in *; tauto.
Qed.

(** ** Rounding to two decimals *)

Lemma round_half_even_eq (x y : Q) :
  x == y -> Py.round_half_even x = Py.round_half_even y.
Proof.
  intros H. unfold Py.round_half_even.
  rewrite (Qfloor_comp x y H).
  assert (Hc : Qcompare (x - inject_Z (Qfloor y)) (1 # 2)
               = Qcompare (y - inject_Z (Qfloor y)) (1 # 2))
    by (apply Qcompare_comp; [rewrite H |]; reflexivity).
  rewrite Hc. reflexivity.
Qed.

Lemma round2_eq (x y : Q) : x == y -> Py.round2 x = Py.round2 y.
Proof.
  intros H. unfold Py.round2.
  rewrite (round_half_even_eq (x * 100) (y * 100)) by (rewrite H; reflexivity).
  reflexivity.
Qed.

Lemma round_half_even_monotone (x y : Q) :
  x <= y -> (Py.round_half_even x <= Py.round_half_even y)%Z.
Proof.
  intros Hle.
  destruct (Z.le_gt_cases (Py.round_half_even x) (Py.round_half_even y))
    as [| Hgt]; [assumption | exfalso].
  pose proof (round_half_even_close x) as Hx.
  pose proof (round_half_even_close y) as Hy.
  apply Qabs_Qle_condition in Hx, Hy.
  assert (H1 : inject_Z (Py.round_half_even y) + 1
               <= inject_Z (Py.round_half_even x)).
  { change 1 with (inject_Z 1). rewrite <- inject_Z_plus, <- Zle_Qle. lia. }
  assert (Heq : x == y) by lra.
  apply round_half_even_eq in Heq. lia.
Qed.

Lemma round2_monotone (x y : Q) : x <= y -> Py.round2 x <= Py.round2 y.
Proof.
  intros Hle. rewrite !round2_grid.
  assert (H : (Py.round_half_even (x * 100) <= Py.round_half_even (y * 100))%Z)
    by (apply round_half_even_monotone; lra).
  rewrite Zle_Qle in H.
  unfold Qdiv. apply Qmult_le_compat_r; [exact H | discriminate].
Qed.

(** ** Means *)

Lemma div_le_div (a b n : Q) : 0 < n -> a <= b -> a / n <= b / n.
Proof.
  intros Hn Hab. unfold Qdiv. apply Qmult_le_compat_r; [exact Hab |].
  apply Qinv_le_0_compat, Qlt_le_weak, Hn.
Qed.

Lemma count_succ (n : nat) :
  inject_Z (Z.of_nat (S n)) == inject_Z (Z.of_nat n) + 1.
Proof. rewrite Nat2Z.inj_succ. unfold Z.succ. rewrite inject_Z_plus. reflexivity. Qed.

(** The valid pairs of a list of detector answers. *)
Lemma well_separated_pairs (intervals : list interval) :
  Forall well_separated intervals ->
  exists ps : list (Q * Q),
    omap fst intervals = map fst ps
    /\ omap snd intervals = map snd ps
    /\ Forall (fun p => 4.5 <= fst p /\ fst p + 0.5 <= snd p /\ snd p <= 7.5) ps.
Proof.
  induction 1 as [| i l Hi _ (ps & Hs & He & Hps)].
  - exists []. repeat split; constructor.
  - destruct i as [[s |] [e |]]; simpl in Hi; try contradiction.
    + exists ((s, e) :: ps). split; [| split].
      * change (s :: omap fst l = s :: map fst ps). now rewrite Hs.
      * change (e :: omap snd l = e :: map snd ps). now rewrite He.
      * constructor; assumption.
    + exists ps. auto.
Qed.

Lemma separated_sums (ps : list (Q * Q)) :
  Forall (fun p => 4.5 <= fst p /\ fst p + 0.5 <= snd p /\ snd p <= 7.5) ps ->
  let n := inject_Z (Z.of_nat (length ps)) in
  4.5 * n <= np_sum (map fst ps)
  /\ np_sum (map fst ps) + 0.5 * n <= np_sum (map snd ps)
  /\ np_sum (map snd ps) <= 7.5 * n.
Proof.
  induction 1 as [| p ps (H1 & H2 & H3) _ IH]; cbv zeta in *.
  - repeat split; vm_compute; discriminate.
  - cbn [map np_sum fold_right length]. fold (np_sum (map fst ps)).
    fold (np_sum (map snd ps)). rewrite count_succ.
    destruct IH as (I1 & I2 & I3). repeat split; lra.
Qed.

Lemma consensus_of_separated (intervals : list interval) :
  Forall well_separated intervals ->
  4.5 <= fst (calculate_weighted_average_interval intervals)
  /\ fst (calculate_weighted_average_interval intervals)
     < snd (calculate_weighted_average_interval intervals)
  /\ snd (calculate_weighted_average_interval intervals) <= 7.5.
Proof.
  intros H. rewrite aggregator_unfold.
  destruct (well_separated_pairs intervals H) as (ps & -> & -> & Hps).
  destruct ps as [| p ps]; [simpl; repeat split; lra |].
  pose proof (separated_sums (p :: ps) Hps) as Hsum. cbv zeta in Hsum.
  cbn [map fst snd].
  change (fst p :: map fst ps) with (map fst (p :: ps)).
  change (snd p :: map snd ps) with (map snd (p :: ps)).
  set (n := inject_Z (Z.of_nat (length (p :: ps)))) in *.
  assert (Hn : 0 < n).
  { subst n. change 0 with (inject_Z 0). rewrite <- Zlt_Qlt. simpl. lia. }
  set (S1 := np_sum (map fst (p :: ps))) in *.
  set (S2 := np_sum (map snd (p :: ps))) in *.
  destruct Hsum as (H1 & H2 & H3).
  assert (Hlen1 : length (map fst (p :: ps)) = length (p :: ps))
    by apply length_map.
  assert (Hlen2 : length (map snd (p :: ps)) = length (p :: ps))
    by apply length_map.
  assert (M1 : 4.5 <= np_mean (map fst (p :: ps))).
  { unfold np_mean. rewrite Hlen1. fold S1 n.
    apply Qle_shift_div_l; [exact Hn | exact H1]. }
  assert (M2 : np_mean (map fst (p :: ps)) + 0.5 <= np_mean (map snd (p :: ps))).
  { unfold np_mean. rewrite Hlen1, Hlen2. fold S1 S2 n.
    assert (E : S1 / n + 0.5 == (S1 + 0.5 * n) / n) by (field; lra).
    rewrite E. apply div_le_div; assumption. }
  assert (M3 : np_mean (map snd (p :: ps)) <= 7.5).
  { unfold np_mean. rewrite Hlen2. fold S2 n.
    apply Qle_shift_div_r; [exact Hn | exact H3]. }
  set (ms := np_mean (map fst (p :: ps))) in *.
  set (me := np_mean (map snd (p :: ps))) in *.
  pose proof (round2_monotone _ _ M1) as R1.
  pose proof (round2_monotone _ _ M3) as R3.
  pose proof (round2_close ms) as C1. pose proof (round2_close me) as C2.
  apply Qabs_Qle_condition in C1, C2.
  change (Py.round2 4.5) with (9 # 2) in R1.
  change (Py.round2 7.5) with (15 # 2) in R3.
  repeat split; lra.
Qed.

(** X7: whatever the recordings of a batch hold, the consensus of the
    detector's answers on the default window 5.0-7.0 is an interval
    with 4.5 <= start < end <= 7.5, the fixed default included. *)
Theorem consensus_of_detections_in_range `{cv : OpenCV}
    (recordings : list (spectrogram * list Q)) :
  let intervals :=
    map (fun r => detect_switch_noise (fst r) (snd r) 5.0 7.0) recordings in
  let consensus := calculate_weighted_average_interval intervals in
  4.5 <= fst consensus /\ fst consensus < snd consensus /\ snd consensus <= 7.5.
Proof.
  cbv zeta. apply consensus_of_separated.
  apply List.Forall_forall. intros i Hin.
  apply in_map_iff in Hin as (r & <- & _).
  apply default_window_well_separated.
Qed.

(** ** More on the segment splitter *)

(** X8: the excise step on non-negative cut points never fails, and the
    result lasts [min(start, L) + L - min(end, L)] milliseconds.  Cut
    points that coincide, or that both lie at or past the end of the
    recording, leave the recording as it is; an end before the start
    removes nothing and repeats the audio between the two. *)
Theorem excise_length (audio : AudioSegment) (start_ms end_ms : Z) :
  (0 <= start_ms)%Z -> (0 <= end_ms)%Z ->
  let L := Pydub.len audio in
  exists cropped,
    excise audio start_ms end_ms = Ok cropped
    /\ Pydub.len cropped = (Z.min start_ms L + L - Z.min end_ms L)%Z
    /\ (start_ms = end_ms \/ (L <= start_ms /\ L <= end_ms)%Z ->
        units cropped = units audio)
    /\ ((end_ms <= start_ms)%Z -> (L <= Pydub.len cropped)%Z).
Proof.
  intros Hs He L. pose proof (len_nonneg audio) as HL. fold L in HL.
  eexists. split; [apply excise_clamps; assumption |].
  fold L.
  set (c := take (Z.to_nat (Z.min start_ms L)) (units audio)
            ++ drop (Z.to_nat (Z.min end_ms L)) (units audio)).
  change (Pydub.len (Pydub.spawn audio c)) with (Z.of_nat (length c)).
  change (units (Pydub.spawn audio c)) with c.
  assert (Hc : Z.of_nat (length c) = (Z.min start_ms L + L - Z.min end_ms L)%Z).
  { subst c. rewrite length_app, length_take, length_drop.
    unfold L, Pydub.len in *. lia. }
  split; [exact Hc |]. split; [| lia].
  intros [-> | [H1 H2]]; subst c.
  - apply take_drop.
  - rewrite !Z.min_r by lia.
    rewrite take_ge, drop_ge by (unfold L, Pydub.len; lia).
    apply app_nil_r.
Qed.

Lemma excise_length_witness :
  exists cropped,
    excise (Fixture.ramp 10) 7 5 = Ok cropped /\ Pydub.len cropped = 12%Z.
Proof.
  destruct (excise_length (Fixture.ramp 10) 7 5 ltac:(lia) ltac:(lia))
    as (cropped & Hex & Hlen & _).
  exists cropped. split; [exact Hex | rewrite Hlen; reflexivity].
Defined.

Lemma append_inv_head (s a b : string) :
  (s ++ a)%string = (s ++ b)%string -> a = b.
Proof.
  induction s as [| c s IH]; [auto |].
  change (String c (s ++ a) = String c (s ++ b) -> a = b)%string.
  intros [= H]. auto.
Qed.

Lemma append_assoc (a b c : string) :
  ((a ++ b) ++ c)%string = (a ++ (b ++ c))%string.
Proof.
  induction a as [| x a IH]; [reflexivity |].
  change (String x ((a ++ b) ++ c) = String x (a ++ (b ++ c)))%string.
  f_equal. exact IH.
Qed.

(** The two halves never go to the same file. *)
Lemma cw_acw_paths_differ (output_dir base : string) :
  path_join (path_join output_dir "Clockwise") (base ++ "_cw.wav")
  <> path_join (path_join output_dir "Anticlockwise") (base ++ "_acw.wav").
Proof.
  unfold path_join. rewrite !append_assoc.
  intros H. apply append_inv_head in H. discriminate H.
Qed.





(** ** File names *)

Lemma lookup_absent_after_last_dot (s : string) :
  after_last_dot s = None <-> contains_char "." s = false.
Proof.
  induction s as [| c s IH]; [split; reflexivity |].
  cbn [after_last_dot contains_char].
  destruct (after_last_dot s) as [e |].
  - split; [discriminate |]. intros H.
    apply orb_false_elim in H as [_ H]. apply IH in H. discriminate H.
  - rewrite (Ascii.eqb_sym "." c).
    destruct (Ascii.eqb c "."); cbn [orb]; [split; discriminate |].
    split; intros H; [apply IH; reflexivity | reflexivity].
Qed.

Lemma after_last_dot_split (s ext : string) :
  after_last_dot s = Some ext ->
  exists stem, s = (stem ++ String "." ext)%string
               /\ contains_char "." ext = false.
Proof.
  revert ext. induction s as [| c s IH]; intros ext; [discriminate |].
  cbn [after_last_dot].
  destruct (after_last_dot s) as [e |] eqn:E.
  - intros [= <-]. destruct (IH e eq_refl) as (stem & -> & Hext).
    exists (String c stem). split; [reflexivity | exact Hext].
  - destruct (Ascii.eqb c ".") eqn:Hc; [| discriminate].
    intros [= <-]. apply Ascii.eqb_eq in Hc as ->.
    exists EmptyString. split; [reflexivity |].
    apply lookup_absent_after_last_dot, E.
Qed.

Lemma allowed_file_of_extension (stem ext : string) :
  contains_char "." ext = false ->
  lower ext ∈ ALLOWED_EXTENSIONS ->
  allowed_file (stem ++ String "." ext) = true.
Proof.
  intros Hext Hin. unfold allowed_file.
  rewrite contains_dot_append, after_last_dot_append
    by (apply lookup_absent_after_last_dot, Hext).
  cbn [andb]. apply bool_decide_eq_true, Hin.
Qed.

(** X11: the upload filter accepts exactly the names of the form
    [stem.ext] in which [ext] contains no dot and, in lower case, is one
    of wav, mp3, flac and aac; in particular a name without a dot is
    refused. *)
Theorem allowed_file_iff (name : string) :
  allowed_file name = true
  <-> exists stem ext,
        name = (stem ++ String "." ext)%string
        /\ contains_char "." ext = false
        /\ lower ext ∈ ALLOWED_EXTENSIONS.
Proof.
  split.
  - unfold allowed_file. intros H. apply andb_prop in H as [_ H].
    destruct (after_last_dot name) as [ext |] eqn:E; [| discriminate].
    apply after_last_dot_split in E as (stem & -> & Hext).
    apply bool_decide_eq_true in H. eauto.
  - intros (stem & ext & -> & Hext & Hin).
    apply allowed_file_of_extension; assumption.
Qed.

Lemma lower_char_dot (c : ascii) :
  Ascii.eqb "." (lower_char c) = Ascii.eqb "." c.
Proof.
  destruct c as [[] [] [] [] [] [] [] []]; reflexivity.
Qed.

Lemma lower_keeps_dots (s : string) :
  contains_char "." (lower s) = contains_char "." s.
Proof.
  induction s as [| c s IH]; [reflexivity |].
  cbn [lower contains_char]. rewrite lower_char_dot, IH. reflexivity.
Qed.

Lemma lower_length (s : string) : String.length (lower s) = String.length s.
Proof. induction s as [| c s IH]; simpl; [reflexivity | now rewrite IH]. Qed.

Lemma substring_all (s : string) : substring 0 (String.length s) s = s.
Proof. induction s as [| c s IH]; simpl; [reflexivity | now rewrite IH]. Qed.

Lemma endswith_same_length (s suffix : string) :
  String.length s = String.length suffix ->
  endswith s suffix = String.eqb s suffix.
Proof.
  intros H. unfold endswith. rewrite <- H, Nat.sub_diag, Nat.leb_refl.
  rewrite substring_all. reflexivity.
Qed.

(** X12: the upload filter compares extensions without regard to case,
    the splitter does not: a name whose extension is "mp3" in other than
    lower case ([take.MP3], [take.Mp3]) passes the filter and is then
    handed to the WAV loader. *)
Theorem uppercase_mp3_goes_to_wav_loader `{codec : Codec}
    (disk : gmap string bytes) (stem ext : string) :
  lower ext = "mp3"%string -> ext <> "mp3"%string ->
  allowed_file (stem ++ String "." ext) = true
  /\ load_audio disk (stem ++ String "." ext)
     = (b ← read_file disk (stem ++ String "." ext); from_wav b).
Proof.
  intros Hlow Hne. split.
  - apply allowed_file_of_extension.
    + rewrite <- lower_keeps_dots, Hlow. reflexivity.
    + rewrite Hlow. unfold ALLOWED_EXTENSIONS.
      apply list_elem_of_In. simpl. auto.
  - assert (Hlen : String.length ext = 3%nat)
      by (rewrite <- lower_length, Hlow; reflexivity).
    assert (Hend : endswith (stem ++ String "." ext) ".mp3" = false).
    { rewrite endswith_append by (simpl; lia).
      rewrite endswith_same_length by (simpl; lia).
      apply String.eqb_neq. congruence. }
    unfold load_audio. rewrite Hend. reflexivity.
Qed.

Lemma uppercase_mp3_goes_to_wav_loader_witness :
  allowed_file "take.MP3" = true
  /\ load_audio (codec := Fixture.codec_mp3_only)
       {[ "take.MP3"%string := repeat "a"%byte 3 ]} "take.MP3"
     = Raise CouldntDecodeError.
Proof.
  destruct (uppercase_mp3_goes_to_wav_loader (codec := Fixture.codec_mp3_only)
              {[ "take.MP3"%string := repeat "a"%byte 3 ]} "take" "MP3"
              eq_refl ltac:(discriminate)) as [H1 H2].
  split; [exact H1 |]. etransitivity; [exact H2 | reflexivity].
Defined.


Lemma rfind_absent (c : ascii) (s : string) (i : nat) :
  contains_char c s = false -> rfind_from c s i = None.
Proof.
  revert i. induction s as [| d s IH]; intros i; [reflexivity |].
  cbn [contains_char rfind_from]. intros H.
  apply orb_false_elim in H as [Hd Hs]. rewrite (IH _ Hs), Hd. reflexivity.
Qed.

Lemma contains_char_append (c : ascii) (s t : string) :
  contains_char c (s ++ t) = contains_char c s || contains_char c t.
Proof.
  induction s as [| d s IH]; [reflexivity |].
  change (contains_char c (String d (s ++ t))
          = contains_char c (String d s) || contains_char c t).
  cbn [contains_char]. rewrite IH. apply orb_assoc.
Qed.

Lemma rfind_last_dot (stem ext : string) (i : nat) :
  contains_char "." ext = false ->
  rfind_from "." (stem ++ String "." ext) i = Some (i + String.length stem)%nat.
Proof.
  intros Hext. revert i. induction stem as [| d stem IH]; intros i.
  - change (rfind_from "." (String "." ext) i = Some (i + 0)%nat).
    cbn [rfind_from]. rewrite (rfind_absent _ _ _ Hext).
    rewrite Nat.add_0_r. reflexivity.
  - change (rfind_from "." (String d (stem ++ String "." ext)) i
            = Some (i + S (String.length stem))%nat).
    cbn [rfind_from]. rewrite IH. f_equal. lia.
Qed.

Lemma substring_prefix (s t : string) :
  substring 0 (String.length s) (s ++ t) = s.
Proof.
  induction s as [| c s IH]; [destruct t; reflexivity |].
  change (String c (substring 0 (String.length s) (s ++ t)) = String c s).
  rewrite IH. reflexivity.
Qed.

(** X13: [os.path.splitext] as the splitter uses it: a name without a
    dot is its own base name, and a name [stem.ext] that has no
    separator and does not begin with a dot has base name [stem] when
    [ext] contains no dot, so that [take.wav] and [take.mp3] share the
    base name [take]. *)
Theorem splitext_root_of_plain_name (c : ascii) (stem ext name : string) :
  c <> "."%char ->
  contains_char "/" (String c stem) = false ->
  contains_char "." ext = false ->
  contains_char "/" ext = false ->
  contains_char "." name = false ->
  splitext_root (String c stem ++ String "." ext) = String c stem
  /\ splitext_root name = name.
Proof.
  intros Hc Hslash Hext Hext' Hname. split.
  - assert (Hall : contains_char "/" (String c stem ++ String "." ext) = false).
    { rewrite contains_char_append, Hslash. cbn [contains_char orb].
      rewrite Hext'. reflexivity. }
    unfold splitext_root.
    rewrite (rfind_absent _ _ 0 Hall).
    rewrite rfind_last_dot by assumption.
    cbn [Nat.add Nat.leb andb].
    change (String c stem ++ String "." ext)%string
      with (String c (stem ++ String "." ext)).
    cbn [String.length has_non_dot].
    destruct (Ascii.eqb_spec c "."); [contradiction |]. cbn [negb orb].
    change (String c (stem ++ String "." ext))
      with (String c stem ++ String "." ext)%string.
    change (S (String.length stem)) with (String.length (String c stem)).
    apply substring_prefix.
  - unfold splitext_root. rewrite (rfind_absent "." name 0 Hname).
    reflexivity.
Qed.

Lemma splitext_root_of_plain_name_witness :
  splitext_root "take.wav" = "take"%string
  /\ splitext_root "take.mp3" = "take"%string.
Proof.
  split.
  - apply (splitext_root_of_plain_name "t" "ake" "wav" "x");
      [discriminate | reflexivity..].
  - apply (splitext_root_of_plain_name "t" "ake" "mp3" "x");
      [discriminate | reflexivity..].
Defined.

(** X14: two files whose names share a base name are written to the
    same two paths: when both splits succeed, what the first one wrote
    is overwritten, and the output directory ends up as if the first
    file had never been split. *)
Theorem same_base_name_overwrites `{codec : Codec}
    (disk : gmap string bytes) (path1 path2 : string)
    (start_time end_time : Q) (output_dir name1 name2 : string)
    (o o1 o2 : outputs) :
  splitext_root name1 = splitext_root name2 ->
  crop_and_split_audio disk path1 start_time end_time output_dir name1 o
  = (o1, true) ->
  crop_and_split_audio disk path2 start_time end_time output_dir name2 o1
  = (o2, true) ->
  crop_and_split_audio disk path2 start_time end_time output_dir name2 o
  = (o2, true).
Proof.
  intros Hbase H1 H2.
  unfold crop_and_split_audio, crop_body in *. rewrite <- Hbase in *.
  destruct (load_audio disk path1) as [audio1 |]; [| discriminate].
  destruct (load_audio disk path2) as [audio2 |]; [| discriminate].
  destruct (mbind _ (excise audio1 _ _)) as [[cw1 acw1] |]; [| discriminate].
  destruct (mbind _ (excise audio2 _ _)) as [[cw2 acw2] |]; [| discriminate].
  unfold export, makedirs in *. cbn [dirs wavs] in *.
  destruct (export_wav cw1 _); cbn [mbind result_bind dirs wavs] in H1;
    [| discriminate].
  destruct (export_wav acw1 _); cbn [mbind result_bind dirs wavs] in H1;
    [| discriminate].
  destruct (export_wav cw2 _); cbn [mbind result_bind dirs wavs] in *;
    [| discriminate].
  destruct (export_wav acw2 _); cbn [mbind result_bind dirs wavs] in *;
    [| discriminate].
  injection H1 as <-. injection H2 as <-. cbn [dirs wavs].
  f_equal. f_equal.
  - apply set_eq. intros x. rewrite !elem_of_union. tauto.
  - pose proof (cw_acw_paths_differ output_dir (splitext_root name1)) as Hne.
    rewrite (insert_insert_ne _ _ _ cw2 acw1) by exact Hne.
    rewrite !insert_insert_eq. reflexivity.
Qed.

Lemma same_base_name_overwrites_witness :
  let disk : gmap string bytes :=
    {[ "uploads/take.wav"%string := repeat "a"%byte 10;
       "uploads/take.mp3"%string := repeat "b"%byte 10 ]} in
  exists o1 o2,
    crop_and_split_audio (codec := Fixture.codec) disk "uploads/take.wav"
      (4 # 1000) (6 # 1000) "out" "take.wav" no_outputs = (o1, true)
    /\ crop_and_split_audio (codec := Fixture.codec) disk "uploads/take.mp3"
         (4 # 1000) (6 # 1000) "out" "take.mp3" o1 = (o2, true)
    /\ crop_and_split_audio (codec := Fixture.codec) disk "uploads/take.mp3"
         (4 # 1000) (6 # 1000) "out" "take.mp3" no_outputs = (o2, true).
Proof.
  cbv zeta. do 2 eexists.
  split; [vm_compute; reflexivity |].
  split; [vm_compute; reflexivity |].
  eapply (same_base_name_overwrites (codec := Fixture.codec) _
            "uploads/take.wav" "uploads/take.mp3" _ _ "out"
            "take.wav" "take.mp3" no_outputs).
  - reflexivity.
  - vm_compute. reflexivity.
  - vm_compute. reflexivity.
Defined.

(** ** Dictionaries *)

Lemma in_keys_dict_set {V} (k x : string) (v : V) (d : dict V) :
  In x (dict_keys (dict_set k v d)) <-> x = k \/ In x (dict_keys d).
Proof.
  unfold dict_keys. induction d as [| [k' v'] d IH]; simpl.
  - split; intros [H | H]; auto; contradiction.
  - destruct (String.eqb_spec k k') as [<- | Hne]; simpl.
    + split; [intros [H | H]; auto | intros [H | [H | H]]; auto].
    + rewrite IH. split; [intros [H | [H | H]] | intros [H | [H | H]]]; auto.
Qed.

Lemma dict_set_nodup {V} (k : string) (v : V) (d : dict V) :
  NoDup (dict_keys d) -> NoDup (dict_keys (dict_set k v d)).
Proof.
  unfold dict_keys. induction d as [| [k' v'] d IH]; simpl; intros H.
  - apply NoDup_cons. split; [apply not_elem_of_nil | constructor].
  - apply NoDup_cons in H as [Hk' Hd].
    destruct (String.eqb_spec k k') as [<- | Hne]; simpl.
    + apply NoDup_cons. auto.
    + apply NoDup_cons. split; [| auto].
      rewrite list_elem_of_In. intros Hin.
      apply (in_keys_dict_set k k' v d) in Hin as [-> | Hin];
        [congruence |].
      apply Hk'. apply list_elem_of_In. exact Hin.
Qed.

Lemma dict_set_same_keys {V W} (k : string) (v : V) (w : W)
    (d : dict V) (d' : dict W) :
  dict_keys d = dict_keys d' ->
  dict_keys (dict_set k v d) = dict_keys (dict_set k w d').
Proof.
  unfold dict_keys. revert d'.
  induction d as [| [k1 v1] d IH]; intros [| [k2 w2] d']; simpl;
    try discriminate; [reflexivity |].
  intros [= <- H]. destruct (String.eqb k k1); simpl; [congruence |].
  f_equal. apply IH, H.
Qed.

Lemma dict_get_none {V} (k : string) (d : dict V) :
  dict_get k d = None <-> ~ In k (dict_keys d).
Proof.
  unfold dict_keys. induction d as [| [k' v'] d IH]; simpl; [tauto |].
  destruct (String.eqb_spec k k') as [<- | Hne].
  - split; [discriminate | intros H; exfalso; auto].
  - rewrite IH. split; [intros H [H' | H']; auto | tauto].
Qed.

Lemma dict_get_in {V} (k : string) (v : V) (d : dict V) :
  dict_get k d = Some v -> In (k, v) d.
Proof.
  induction d as [| [k' v'] d IH]; simpl; [discriminate |].
  destruct (String.eqb_spec k k') as [<- | Hne].
  - intros [= <-]. auto.
  - auto.
Qed.

(** ** What every reachable state satisfies *)

Lemma consistent_after_save (st : state) (path : string) (content : bytes)
    (pictures : gmap string bytes) :
  consistent st ->
  consistent {| batch_data := batch_data st;
                spectrogram_cache := spectrogram_cache st;
                upload_folder := <[path := content]> (upload_folder st);
                spectrogram_folder := pictures;
                output_folder := output_folder st |}.
Proof.
  intros (Hkeys & Hnodup & Hentries). unfold consistent. cbn.
  split; [exact Hkeys |]. split; [exact Hnodup |].
  intros k fd Hin. destruct (Hentries k fd Hin) as (H1 & H2 & H3).
  split; [exact H1 |]. split; [exact H2 |].
  apply lookup_insert_is_Some.
  destruct (decide (path = file_path fd)); auto.
Qed.

Lemma consistent_after_entry (st : state) (k : string) (fd : file_data)
    (entry : spec_entry) (content : bytes) (pictures : gmap string bytes) :
  unique_filename fd = k ->
  file_path fd = path_join UPLOAD_FOLDER k ->
  consistent st ->
  consistent {| batch_data := dict_set k fd (batch_data st);
                spectrogram_cache := dict_set k entry (spectrogram_cache st);
                upload_folder :=
                  <[path_join UPLOAD_FOLDER k := content]> (upload_folder st);
                spectrogram_folder := pictures;
                output_folder := output_folder st |}.
Proof.
  intros Hu Hp (Hkeys & Hnodup & Hentries). unfold consistent. cbn.
  split; [apply dict_set_same_keys, Hkeys |].
  split; [apply dict_set_nodup, Hnodup |].
  intros k' fd' Hin. apply in_dict_set in Hin as [[= -> ->] | Hin].
  - split; [exact Hu |]. split; [exact Hp |].
    rewrite Hp. apply lookup_insert_is_Some. auto.
  - destruct (Hentries k' fd' Hin) as (H1 & H2 & H3).
    split; [exact H1 |]. split; [exact H2 |].
    apply lookup_insert_is_Some.
    destruct (decide (path_join UPLOAD_FOLDER k = file_path fd')); auto.
Qed.

Section ReachableStates.

Context `{cv : OpenCV} `{codec : Codec} `{rosa : Librosa} `{wz : Werkzeug}.

Lemma upload_loop_consistent (clock : nat -> string) (files : list FileStorage) :
  forall (i : nat) (st : state) (results : list row) (intervals : list interval),
    consistent st ->
    consistent (fst (upload_loop clock i files st results intervals)).
Proof.
  induction files as [| file rest IH]; intros i st results intervals Hst.
  - exact Hst.
  - cbn [upload_loop].
    destruct (negb _ && _); [| apply IH, Hst].
    destruct (generate_mel_spectrogram _ _ _ _) as [pictures [[[mel tf] rate] |]].
    2:{ apply IH, consistent_after_save, Hst. }
    destruct (detect_switch_noise mel tf 5.0 7.0) as [start_time end_time].
    destruct (mbind _ _) as [r | e].
    + apply IH, consistent_after_entry; [reflexivity | reflexivity | exact Hst].
    + apply consistent_after_entry; [reflexivity | reflexivity | exact Hst].
Qed.

Lemma upload_files_consistent (clock : nat -> string)
    (files : option (list FileStorage)) (st : state) :
  consistent st -> consistent (fst (upload_files clock files st)).
Proof.
  intros Hst. unfold upload_files.
  destruct files as [files |]; [| exact Hst].
  destruct (negb (selects_files files)); [exact Hst |].
  assert (Hcleared : consistent (cleared st)).
  { unfold consistent, cleared. cbn.
    split; [reflexivity |]. split; [constructor | intros k fd []]. }
  pose proof (upload_loop_consistent clock files 0 (cleared st) [] [] Hcleared)
    as H.
  destruct (upload_loop clock 0 files (cleared st) [] []) as [s r].
  destruct r as [[results intervals] | e]; [destruct results |]; exact H.
Qed.

Lemma process_batch_consistent (timestamp : string) (data : option (Q * Q))
    (st : state) :
  consistent st -> consistent (fst (process_batch timestamp data st)).
Proof.
  intros Hst. unfold process_batch.
  destruct data as [[start_time end_time] |]; [| exact Hst].
  destruct (split_loop _ _ _ _ _ _ _ _) as [[o p] f]. exact Hst.
Qed.

Lemma run_consistent (history : list request) (st : state) :
  consistent st -> consistent (run st history).
Proof.
  revert st. induction history as [| r history IH]; intros st Hst.
  - exact Hst.
  - cbn [run fold_left]. apply IH.
    destruct r as [clock files | timestamp data]; cbn [handle].
    + apply upload_files_consistent, Hst.
    + apply process_batch_consistent, Hst.
Qed.

(** X15: after any sequence of uploads and batch splits, [batch_data]
    and [spectrogram_cache] hold the same keys in the same order, no key
    twice, and every entry of [batch_data] carries its own key as
    [unique_filename] and points to a file that is in the upload
    folder, so that a batch split never fails for want of the file. *)
Theorem reachable_states_consistent (history : list request)
    (k : string) (fd : file_data) :
  let st := run initial_state history in
  In (k, fd) (batch_data st) ->
  dict_keys (batch_data st) = dict_keys (spectrogram_cache st)
  /\ NoDup (dict_keys (batch_data st))
  /\ unique_filename fd = k
  /\ file_path fd = path_join UPLOAD_FOLDER k
  /\ exists content,
       read_file (upload_folder st) (file_path fd) = Ok content.
Proof.
  intros st Hin.
  assert (Hst : consistent st).
  { apply run_consistent. unfold consistent, initial_state. cbn.
    split; [reflexivity |]. split; [constructor | intros k' fd' []]. }
  destruct Hst as (Hkeys & Hnodup & Hentries).
  destruct (Hentries k fd Hin) as (H1 & H2 & [content H3]).
  repeat split; try assumption.
  exists content. unfold read_file. rewrite H3. reflexivity.
Qed.

(** X16: after any sequence of uploads and batch splits,
    [get_spectrogram] answers 404 exactly for the names that are not in
    [batch_data], and for a name that is, it answers with the file name
    and the detected interval of that entry: the fallbacks [''] and
    [[5.5, 6.5]] are never served. *)
Theorem get_spectrogram_serves_batch_entries (history : list request)
    (unique : string) :
  let st := run initial_state history in
  (get_spectrogram unique st = SpectrogramNotFound
   <-> dict_get unique (batch_data st) = None)
  /\ forall fd,
       dict_get unique (batch_data st) = Some fd ->
       exists mel axis rate,
         get_spectrogram unique st
         = SpectrogramData mel axis rate (filename fd) (detected_interval fd).
Proof.
  intros st.
  assert (Hst : consistent st).
  { apply run_consistent. unfold consistent, initial_state. cbn.
    split; [reflexivity |]. split; [constructor | intros k' fd' []]. }
  destruct Hst as (Hkeys & _ & _).
  assert (Hnone : dict_get unique (spectrogram_cache st) = None
                  <-> dict_get unique (batch_data st) = None)
    by (rewrite !dict_get_none, Hkeys; reflexivity).
  unfold get_spectrogram. split.
  - destruct (dict_get unique (spectrogram_cache st)) as [entry |].
    + split; [discriminate |]. intros H. apply Hnone in H. discriminate H.
    + split; [intros _; apply Hnone; reflexivity | reflexivity].
  - intros fd Hfd.
    destruct (dict_get unique (spectrogram_cache st)) as [entry |].
    + rewrite Hfd. do 3 eexists. reflexivity.
    + destruct Hnone as [Hnone _]. rewrite Hnone in Hfd by reflexivity.
      discriminate Hfd.
Qed.

End ReachableStates.

Lemma reachable_states_consistent_witness :
  let st :=
    run (cv := Fixture.cv_flat) (codec := Fixture.codec) (rosa := Fixture.rosa)
      (wz := Fixture.wz) initial_state
      [Upload (Fixture.clock_at "t0_") (Some [Fixture.file_of "old.wav" 13]);
       ProcessBatch "t0" (Some (5.5, 6.5));
       Upload (Fixture.clock_at "t1_")
         (Some [Fixture.file_of "a.wav" 13; Fixture.file_of "b.mp3" 13])] in
  dict_keys (batch_data st) = dict_keys (spectrogram_cache st)
  /\ NoDup (dict_keys (batch_data st)).
Proof.
  cbv zeta.
  pose proof (reachable_states_consistent (cv := Fixture.cv_flat)
                (codec := Fixture.codec) (rosa := Fixture.rosa)
                (wz := Fixture.wz)
                [Upload (Fixture.clock_at "t0_")
                   (Some [Fixture.file_of "old.wav" 13]);
                 ProcessBatch "t0" (Some (5.5, 6.5));
                 Upload (Fixture.clock_at "t1_")
                   (Some [Fixture.file_of "a.wav" 13;
                          Fixture.file_of "b.mp3" 13])]
                "t1_a.wav"
                {| filename := "a.wav";
                   unique_filename := "t1_a.wav";
                   file_path := "uploads/t1_a.wav";
                   spec_image_path := "temp_spectrograms/t1_a.wav.png";
                   detected_interval := (Some 5.0, Some 7.0);
                   duration := 13 * (1 - 0) |}) as H.
  cbv zeta in H.
  destruct H as (H1 & H2 & _); [vm_compute; left; reflexivity |].
  split; assumption.
Defined.

Section MoreHandlerFacts.

Context `{cv : OpenCV} `{codec : Codec} `{rosa : Librosa} `{wz : Werkzeug}.

(** No upload touches the output folder. *)
Lemma upload_files_output (clock : nat -> string)
    (files : option (list FileStorage)) (st : state) :
  output_folder (fst (upload_files clock files st)) = output_folder st.
Proof.
  unfold upload_files. destruct files as [files |]; [| reflexivity].
  destruct (negb (selects_files files)); [reflexivity |].
  pose proof (upload_loop_output clock files 0 (cleared st) [] []) as H.
  destruct (upload_loop clock 0 files (cleared st) [] []) as [s r].
  destruct r as [[results intervals] | e]; [destruct results |]; exact H.
Qed.

(** Every row of the answer names a key of [spectrogram_cache]. *)
Lemma upload_loop_rows (clock : nat -> string) (files : list FileStorage) :
  forall (i : nat) (st : state) (results : list row) (intervals : list interval)
         (st' : state) (results' : list row) (intervals' : list interval),
    (forall r, In r results ->
               In (row_unique_filename r) (dict_keys (spectrogram_cache st))) ->
    upload_loop clock i files st results intervals
    = (st', Ok (results', intervals')) ->
    forall r, In r results' ->
              In (row_unique_filename r) (dict_keys (spectrogram_cache st')).
Proof.
  induction files as [| file rest IH];
    intros i st results intervals st' results' intervals' Hrows Hloop.
  - cbn in Hloop. injection Hloop as <- <- <-. exact Hrows.
  - cbn [upload_loop] in Hloop.
    destruct (negb _ && _); [| eapply IH; eassumption].
    destruct (generate_mel_spectrogram _ _ _ _) as [pictures [[[mel tf] rate] |]].
    2:{ eapply IH; [| exact Hloop]. exact Hrows. }
    destruct (detect_switch_noise mel tf 5.0 7.0) as [start_time end_time].
    destruct start_time as [s |]; cbn [round2_value mbind result_bind] in Hloop;
      [| discriminate].
    destruct end_time as [e |]; cbn [round2_value mbind result_bind] in Hloop;
      [| discriminate].
    eapply IH; [| exact Hloop].
    intros r Hin. cbn [spectrogram_cache].
    apply in_keys_dict_set.
    apply in_app_or in Hin as [Hin | [<- | []]]; [right; auto | left; reflexivity].
Qed.

(** X17: every file listed in the answer of a successful upload can be
    fetched: [get_spectrogram] on its [unique_filename] does not answer
    404, and [get_file_list] lists it. *)
Theorem uploaded_rows_can_be_fetched (clock : nat -> string)
    (files : option (list FileStorage)) (st st' : state)
    (rows : list row) (average : Q * Q) (total : nat) (r : row) :
  consistent st ->
  upload_files clock files st = (st', Uploaded rows average total) ->
  In r rows ->
  get_spectrogram (row_unique_filename r) st' <> SpectrogramNotFound
  /\ In (row_unique_filename r) (map listed_unique_filename (get_file_list st'))
  /\ total = length rows.
Proof.
  intros Hst Hup Hin.
  pose proof (upload_files_consistent clock files st Hst) as Hst'.
  rewrite Hup in Hst'. cbn [fst] in Hst'. destruct Hst' as (Hkeys & _ & _).
  unfold upload_files in Hup. destruct files as [files |]; [| discriminate].
  destruct (negb (selects_files files)); [discriminate |].
  destruct (upload_loop clock 0 files (cleared st) [] [])
    as [s [[results intervals] | e]] eqn:Hloop; [| discriminate].
  destruct results as [| r0 results]; [discriminate |].
  injection Hup as -> <- _ <-.
  pose proof (upload_loop_rows clock files 0 (cleared st) [] [] _ _ _
                (fun r H => match H with end) Hloop r Hin) as Hkey.
  split; [| split; [| reflexivity]].
  - unfold get_spectrogram.
    destruct (dict_get (row_unique_filename r) (spectrogram_cache st'))
      eqn:E; [discriminate |].
    apply dict_get_none in E. contradiction.
  - unfold get_file_list. rewrite map_map. cbn [listed_unique_filename].
    rewrite <- Hkeys in Hkey. exact Hkey.
Qed.

Lemma upload_loop_skips (clock : nat -> string) (files : list FileStorage) :
  forall (i : nat) (st : state) (results : list row) (intervals : list interval),
    (forall f, In f files -> allowed_file (fs_filename f) = false) ->
    upload_loop clock i files st results intervals
    = (st, Ok (results, intervals)).
Proof.
  induction files as [| file rest IH]; intros i st results intervals Hnone.
  - reflexivity.
  - cbn [upload_loop]. rewrite (Hnone file (or_introl eq_refl)).
    rewrite andb_false_r. apply IH. intros f Hf. apply Hnone. right. exact Hf.
Qed.

(** X19: an upload that names files but none with an allowed extension
    is answered with an error, yet it has already emptied [batch_data]
    and [spectrogram_cache] and wiped the upload and spectrogram
    folders: the previous batch is gone.  Nothing of the request is
    saved. *)
Theorem upload_without_allowed_file_clears_batch (clock : nat -> string)
    (files : list FileStorage) (st : state) :
  selects_files files = true ->
  (forall f, In f files -> allowed_file (fs_filename f) = false) ->
  upload_files clock (Some files) st
  = (cleared st, BadRequest "No valid audio files processed")
  /\ batch_view (cleared st) = ([], [], ∅, ∅)
  /\ get_file_list (fst (upload_files clock (Some files) st)) = [].
Proof.
  intros Hsel Hnone.
  assert (H : upload_files clock (Some files) st
              = (cleared st, BadRequest "No valid audio files processed")).
  { unfold upload_files. rewrite Hsel. cbn [negb].
    rewrite upload_loop_skips by exact Hnone. reflexivity. }
  rewrite H. repeat split; reflexivity.
Qed.

(** X20: when the first file of an upload is accepted and transformed
    but its recording ends at or before 5.0 s (the time axis goes
    forward and its last frame is no later than 5.0), the request ends
    in an uncaught [TypeError]: the file is saved and recorded with the
    interval [(None, None)], and no later file of the request is
    looked at. *)
Theorem short_first_file_aborts_upload (clock : nat -> string)
    (file : FileStorage) (rest : list FileStorage) (st : state)
    (pictures : gmap string bytes)
    (mel : spectrogram) (axis : list Q) (rate : Z) (t_last : Q) :
  let name := secure_filename (fs_filename file) in
  let unique := (clock 0%nat ++ name)%string in
  let path := path_join UPLOAD_FOLDER unique in
  let picture := path_join SPECTROGRAM_FOLDER (unique ++ ".png") in
  fs_filename file <> ""%string ->
  allowed_file (fs_filename file) = true ->
  generate_mel_spectrogram (<[path := fs_content file]> ∅) path
    (Some picture) ∅
  = (pictures, Some (mel, axis, rate)) ->
  increasing axis ->
  last axis = Some t_last ->
  t_last <= 5.0 ->
  upload_files clock (Some (file :: rest)) st
  = ({| batch_data :=
          [(unique,
            {| filename := name;
               unique_filename := unique;
               file_path := path;
               spec_image_path := picture;
               detected_interval := (None, None);
               duration := duration_of axis |})];
        spectrogram_cache :=
          [(unique,
            {| mel_spec_db := mel; time_frames := axis; sr := rate |})];
        upload_folder := <[path := fs_content file]> ∅;
        spectrogram_folder := pictures;
        output_folder := output_folder st |},
     Uncaught TypeError).
Proof.
  intros name unique path picture Hname Hallowed Hgen Hinc Hlast Hle.
  assert (Hdet : detect_switch_noise mel axis 5.0 7.0 = (None, None)).
  { eapply degenerate_window_detects_nothing;
      [apply (short_recording_window axis 5.0 7.0 t_last Hinc Hlast); lra | lia]. }
  assert (Hnonempty : String.eqb (fs_filename file) "" = false)
    by (apply String.eqb_neq, Hname).
  unfold upload_files, selects_files.
  cbn [forallb]. rewrite Hnonempty. cbn [andb orb negb].
  cbn [upload_loop cleared upload_folder spectrogram_folder batch_data
       spectrogram_cache output_folder].
  rewrite Hnonempty, Hallowed. cbn [negb andb].
  fold name. fold unique. fold path. fold picture.
  rewrite Hgen, Hdet.
  cbn [round2_value mbind result_bind dict_set]. reflexivity.
Qed.

End MoreHandlerFacts.

(** ** The archive of a batch *)

Lemma strip_prefix_app (p s : string) :
  strip_prefix p (p ++ s) = Some s.
Proof.
  induction p as [| c p IH]; [reflexivity |].
  change (strip_prefix (String c p) (String c (p ++ s)) = Some s).
  cbn [strip_prefix]. rewrite Ascii.eqb_refl. exact IH.
Qed.

(** A file below a directory has, relative to the directory, the path
    it was joined from. *)
Lemma relpath_join (output_dir member : string) :
  relpath (path_join output_dir member) output_dir = member.
Proof.
  unfold relpath, path_join. rewrite <- append_assoc, strip_prefix_app.
  reflexivity.
Qed.

Lemma path_join_inj (output_dir a b : string) :
  path_join output_dir a = path_join output_dir b -> a = b.
Proof.
  unfold path_join. intros H.
  apply append_inv_head in H. apply (append_inv_head "/") in H. exact H.
Qed.

(** The archive of a directory holds, under the relative path of each,
    the files below the directory and nothing else. *)
Lemma zip_directory_lookup (output_dir : string) (o : outputs) :
  all_below output_dir (wavs o) ->
  forall member,
    zip_directory output_dir o !! member
    = wavs o !! path_join output_dir member.
Proof.
  unfold zip_directory.
  apply (map_fold_weak_ind
           (fun zipf files =>
              all_below output_dir files ->
              forall member,
                zipf !! member = files !! path_join output_dir member)).
  - intros _ member. rewrite !lookup_empty. reflexivity.
  - intros file_path content files zipf Hfresh IH Hbelow member.
    destruct (Hbelow file_path) as [member0 ->].
    { rewrite lookup_insert_eq. eexists. reflexivity. }
    cbv zeta. rewrite relpath_join.
    assert (IH' : forall m, zipf !! m = files !! path_join output_dir m).
    { apply IH. intros p Hp. apply Hbelow.
      destruct (decide (path_join output_dir member0 = p)) as [<- | Hne].
      - rewrite lookup_insert_eq. eexists. reflexivity.
      - rewrite lookup_insert_ne by exact Hne. exact Hp. }
    destruct (decide (member0 = member)) as [<- | Hne].
    + rewrite !lookup_insert_eq. reflexivity.
    + rewrite !lookup_insert_ne; [apply IH' | | exact Hne].
      intros H. apply Hne, (path_join_inj output_dir), H.
Qed.

Section Archive.

Context `{cv : OpenCV} `{codec : Codec} `{rosa : Librosa} `{wz : Werkzeug}.

(** The splitter writes below the output directory only. *)
Lemma crop_all_below (disk : gmap string bytes) (audio_path : string)
    (start_time end_time : Q) (output_dir filename : string) (o : outputs) :
  all_below output_dir (wavs o) ->
  all_below output_dir
    (wavs (fst (crop_and_split_audio disk audio_path start_time end_time
                  output_dir filename o))).
Proof.
  intros Hbelow.
  assert (Hcw : forall d x,
             path_join (path_join output_dir d) x
             = path_join output_dir (d ++ "/" ++ x)).
  { intros d x. unfold path_join. rewrite !append_assoc. reflexivity. }
  assert (Hins : forall files p seg,
             all_below output_dir files ->
             (exists member, p = path_join output_dir member) ->
             all_below output_dir (<[p := seg]> files)).
  { intros files p seg Hfiles Hp q Hq.
    destruct (decide (p = q)) as [<- | Hne]; [exact Hp |].
    rewrite lookup_insert_ne in Hq by exact Hne. apply Hfiles, Hq. }
  unfold crop_and_split_audio, crop_body.
  destruct (load_audio disk audio_path) as [audio | e]; [| exact Hbelow].
  destruct (mbind _ _) as [[clockwise anticlockwise] | e]; [| exact Hbelow].
  unfold export.
  destruct (export_wav clockwise _) as [[] | e];
    cbn [mbind result_bind fst wavs makedirs]; [| exact Hbelow].
  destruct (export_wav anticlockwise _) as [[] | e];
    cbn [mbind result_bind fst wavs makedirs].
  - apply Hins; [apply Hins; [exact Hbelow |] |]; rewrite Hcw; eexists; reflexivity.
  - apply Hins; [exact Hbelow |]. rewrite Hcw. eexists. reflexivity.
Qed.

Lemma split_loop_all_below (disk : gmap string bytes) (start_time end_time : Q)
    (output_dir : string) (entries : dict file_data) :
  forall (o : outputs) (processed_files failed_files : list string),
    all_below output_dir (wavs o) ->
    all_below output_dir
      (wavs (fst (fst (split_loop disk start_time end_time output_dir entries o
                         processed_files failed_files)))).
Proof.
  induction entries as [| [k fd] rest IH]; intros o p f Hbelow.
  - exact Hbelow.
  - cbn [split_loop].
    pose proof (crop_all_below disk (file_path fd) start_time end_time
                  output_dir (filename fd) o Hbelow) as H.
    destruct (crop_and_split_audio _ _ _ _ _ _ _) as [o' success].
    cbn [fst] in H. destruct success; apply IH, H.
Qed.

(** X18: the archive that [process_batch] announces can be downloaded
    under the announced name; its members are the files the split loop
    wrote below the batch directory, each under its path relative to
    that directory, and nothing else; and it stays downloadable after
    any later upload.  The clock reading and the file names are free
    of separators, as [strftime] and [secure_filename] return them, so
    that every path is one that [os.path.relpath] leaves as it is. *)
Theorem announced_archive_can_be_downloaded (timestamp : string)
    (start_time end_time : Q) (st : state) (clock : nat -> string)
    (files : option (list FileStorage)) :
  contains_char "/" timestamp = false ->
  (forall k fd, In (k, fd) (batch_data st) ->
                contains_char "/" (filename fd) = false) ->
  let split := process_batch timestamp (Some (start_time, end_time)) st in
  let output_dir := path_join OUTPUT_FOLDER ("batch_" ++ timestamp) in
  let written :=
    wavs (fst (fst (split_loop (upload_folder st) start_time end_time
                      output_dir (batch_data st) no_outputs [] []))) in
  exists zip_filename processed failed archive,
    snd split = Processed zip_filename processed failed
    /\ download_zip zip_filename (fst split) = Attachment zip_filename archive
    /\ (forall member,
           archive !! member = written !! path_join output_dir member)
    /\ (forall file_path content,
           written !! file_path = Some content ->
           exists member,
             file_path = path_join output_dir member
             /\ archive !! member = Some content)
    /\ download_zip zip_filename (fst (upload_files clock files (fst split)))
       = Attachment zip_filename archive.
Proof.
  intros _ _. cbv zeta. unfold process_batch.
  pose proof (split_loop_all_below (upload_folder st) start_time end_time
                (path_join OUTPUT_FOLDER ("batch_" ++ timestamp))
                (batch_data st) no_outputs [] []) as Hbelow.
  destruct (split_loop _ _ _ _ _ _ _ _) as [[o p] f].
  cbn [fst snd] in *.
  assert (Hb : all_below (path_join OUTPUT_FOLDER ("batch_" ++ timestamp))
                 (wavs o)).
  { apply Hbelow. intros q Hq. cbn [wavs no_outputs] in Hq.
    rewrite lookup_empty in Hq. destruct Hq as [? Hq]. discriminate Hq. }
  pose proof (zip_directory_lookup _ o Hb) as Hzip.
  do 4 eexists. split; [reflexivity |].
  assert (H : download_zip ("processed_audio_" ++ timestamp ++ ".zip")
                {| batch_data := batch_data st;
                   spectrogram_cache := spectrogram_cache st;
                   upload_folder := upload_folder st;
                   spectrogram_folder := spectrogram_folder st;
                   output_folder :=
                     <[path_join OUTPUT_FOLDER
                         ("processed_audio_" ++ timestamp ++ ".zip") :=
                         zip_directory
                           (path_join OUTPUT_FOLDER ("batch_" ++ timestamp)) o]>
                       (output_folder st) |}
              = Attachment ("processed_audio_" ++ timestamp ++ ".zip")
                  (zip_directory
                     (path_join OUTPUT_FOLDER ("batch_" ++ timestamp)) o)).
  { unfold download_zip. cbn [output_folder].
    rewrite lookup_insert_eq. reflexivity. }
  split; [exact H |]. split; [exact Hzip |].
  split.
  { intros file_path content Hfile.
    destruct (Hb file_path) as [member ->]; [eexists; exact Hfile |].
    exists member. split; [reflexivity |]. rewrite Hzip. exact Hfile. }
  unfold download_zip in *. rewrite upload_files_output. exact H.
Qed.

End Archive.

(** A recording of 13 ms is uploaded and split at (5.5, 6.5), past its
    end: the archive holds its two halves, of 6 and 7 ms, under
    [Clockwise/] and [Anticlockwise/], and nothing else. *)
Lemma announced_archive_can_be_downloaded_witness :
  let st :=
    fst (upload_files (cv := Fixture.cv_flat) (rosa := Fixture.rosa)
           (wz := Fixture.wz) (Fixture.clock_at "t0_")
           (Some [Fixture.file_of "old.wav" 13]) initial_state) in
  let split :=
    process_batch (codec := Fixture.codec) "t1" (Some (5.5, 6.5)) st in
  exists archive,
    download_zip "processed_audio_t1.zip" (fst split)
    = Attachment "processed_audio_t1.zip" archive
    /\ Pydub.len <$> archive !! "Clockwise/old_cw.wav"%string = Some 6%Z
    /\ Pydub.len <$> archive !! "Anticlockwise/old_acw.wav"%string = Some 7%Z
    /\ size archive = 2%nat.
Proof.
  cbv zeta.
  destruct (announced_archive_can_be_downloaded (cv := Fixture.cv_flat)
              (codec := Fixture.codec) (rosa := Fixture.rosa) (wz := Fixture.wz)
              "t1" 5.5 6.5
              (fst (upload_files (cv := Fixture.cv_flat) (rosa := Fixture.rosa)
                      (wz := Fixture.wz) (Fixture.clock_at "t0_")
                      (Some [Fixture.file_of "old.wav" 13]) initial_state))
              (Fixture.clock_at "t2_") None eq_refl)
    as (zip_filename & processed & failed & archive & Hanswer & Hdown & _).
  { intros k fd Hin. vm_compute in Hin.
    destruct Hin as [[= <- <-] | []]. reflexivity. }
  cbv zeta in Hanswer, Hdown.
  assert (Hname : zip_filename = "processed_audio_t1.zip"%string).
  { vm_compute in Hanswer. injection Hanswer as <- _ _. reflexivity. }
  subst zip_filename. exists archive. split; [exact Hdown |].
  vm_compute in Hdown. injection Hdown as <-.
  split; [vm_compute; reflexivity |]. split; vm_compute; reflexivity.
Defined.

Lemma uploaded_rows_can_be_fetched_witness :
  let upload :=
    upload_files (cv := Fixture.cv_flat) (rosa := Fixture.rosa)
      (wz := Fixture.wz) (Fixture.clock_at "t1_")
      (Some [Fixture.file_of "a.wav" 13; Fixture.file_of "notes.txt" 13])
      initial_state in
  get_spectrogram "t1_a.wav" (fst upload) <> SpectrogramNotFound.
Proof.
  cbv zeta.
  eapply (uploaded_rows_can_be_fetched (cv := Fixture.cv_flat)
            (rosa := Fixture.rosa) (wz := Fixture.wz)
            (Fixture.clock_at "t1_")
            (Some [Fixture.file_of "a.wav" 13; Fixture.file_of "notes.txt" 13])
            initial_state _ _ _ _
            {| row_filename := "a.wav";
               row_unique_filename := "t1_a.wav";
               detected_start := 5;
               detected_end := 7;
               row_duration := 13 |}).
  - unfold consistent, initial_state. cbn.
    split; [reflexivity |]. split; [constructor | intros k fd []].
  - vm_compute. reflexivity.
  - left. reflexivity.
Defined.

Lemma upload_without_allowed_file_clears_batch_witness :
  let before :=
    fst (upload_files (cv := Fixture.cv_flat) (rosa := Fixture.rosa)
           (wz := Fixture.wz) (Fixture.clock_at "t0_")
           (Some [Fixture.file_of "old.wav" 13]) initial_state) in
  get_file_list before <> []
  /\ get_file_list
       (fst (upload_files (cv := Fixture.cv_flat) (rosa := Fixture.rosa)
               (wz := Fixture.wz) (Fixture.clock_at "t1_")
               (Some [Fixture.file_of "notes.txt" 13; Fixture.file_of "wav" 13])
               before)) = [].
Proof.
  cbv zeta. split; [vm_compute; discriminate |].
  apply (upload_without_allowed_file_clears_batch (cv := Fixture.cv_flat)
           (rosa := Fixture.rosa) (wz := Fixture.wz)).
  - reflexivity.
  - intros f [<- | [<- | []]]; reflexivity.
Defined.

Lemma short_first_file_aborts_upload_witness :
  snd (upload_files (cv := Fixture.cv_flat) (rosa := Fixture.rosa)
         (wz := Fixture.wz) (Fixture.clock_at "t_")
         (Some [Fixture.file_of "short.wav" 4; Fixture.file_of "long.wav" 13])
         initial_state)
  = Uncaught TypeError.
Proof.
  rewrite (short_first_file_aborts_upload (cv := Fixture.cv_flat)
             (rosa := Fixture.rosa) (wz := Fixture.wz)
             (Fixture.clock_at "t_") (Fixture.file_of "short.wav" 4)
             [Fixture.file_of "long.wav" 13] initial_state
             (<["temp_spectrograms/t_short.wav.png"%string := []]> ∅)
             (Fixture.flat_spectrogram 4) (Fixture.seconds 4) 22050 3).
  - reflexivity.
  - discriminate.
  - reflexivity.
  - vm_compute. reflexivity.
  - apply seconds_increasing.
  - reflexivity.
  - unfold Qle; simpl; lia.
Defined.

(** ** End to end *)

Lemma round2_separated (s e : Q) :
  4.5 <= s -> s + 0.5 <= e -> e <= 7.5 ->
  4.5 <= Py.round2 s /\ Py.round2 s < Py.round2 e /\ Py.round2 e <= 7.5.
Proof.
  intros H1 H2 H3.
  pose proof (round2_monotone _ _ H1) as R1.
  pose proof (round2_monotone _ _ H3) as R3.
  pose proof (round2_close s) as C1. pose proof (round2_close e) as C2.
  apply Qabs_Qle_condition in C1, C2.
  change (Py.round2 4.5) with (9 # 2) in R1.
  change (Py.round2 7.5) with (15 # 2) in R3.
  repeat split; lra.
Qed.

Section EndToEnd.

Context `{cv : OpenCV} `{codec : Codec} `{rosa : Librosa} `{wz : Werkzeug}.

Lemma upload_loop_in_range (clock : nat -> string) (files : list FileStorage) :
  forall (i : nat) (st : state) (results : list row) (intervals : list interval)
         (st' : state) (results' : list row) (intervals' : list interval),
    Forall row_in_range results ->
    Forall well_separated intervals ->
    upload_loop clock i files st results intervals
    = (st', Ok (results', intervals')) ->
    Forall row_in_range results' /\ Forall well_separated intervals'.
Proof.
  induction files as [| file rest IH];
    intros i st results intervals st' results' intervals' Hrows Hsep Hloop.
  - cbn in Hloop. injection Hloop as <- <- <-. auto.
  - cbn [upload_loop] in Hloop.
    destruct (negb _ && _); [| eapply IH; eassumption].
    destruct (generate_mel_spectrogram _ _ _ _) as [pictures [[[mel tf] rate] |]].
    2:{ eapply IH; eassumption. }
    pose proof (default_window_well_separated mel tf) as Hshape.
    destruct (detect_switch_noise mel tf 5.0 7.0) as [start_time end_time].
    destruct start_time as [s |]; cbn [round2_value mbind result_bind] in Hloop;
      [| discriminate].
    destruct end_time as [e |]; cbn [round2_value mbind result_bind] in Hloop;
      [| discriminate].
    eapply IH; [| | exact Hloop].
    + apply Forall_app. split; [exact Hrows |].
      constructor; [| constructor].
      destruct Hshape as (H1 & H2 & H3). unfold row_in_range.
      cbn [detected_start detected_end]. apply round2_separated; assumption.
    + apply Forall_app. split; [exact Hsep |].
      constructor; [exact Hshape | constructor].
Qed.

(** X21: in the answer of every successful upload, whatever was
    uploaded, each file's interval and the consensus satisfy
    4.5 <= start < end <= 7.5. *)
Theorem upload_answer_in_range (clock : nat -> string)
    (files : option (list FileStorage)) (st st' : state)
    (rows : list row) (average : Q * Q) (total : nat) :
  upload_files clock files st = (st', Uploaded rows average total) ->
  Forall row_in_range rows
  /\ 4.5 <= fst average /\ fst average < snd average /\ snd average <= 7.5.
Proof.
  intros Hup. unfold upload_files in Hup.
  destruct files as [files |]; [| discriminate].
  destruct (negb (selects_files files)); [discriminate |].
  destruct (upload_loop clock 0 files (cleared st) [] [])
    as [s [[results intervals] | e]] eqn:Hloop; [| discriminate].
  destruct results as [| r0 results]; [discriminate |].
  injection Hup as -> <- <- _.
  destruct (upload_loop_in_range clock files 0 (cleared st) [] [] _ _ _
              (List.Forall_nil _) (List.Forall_nil _) Hloop) as [Hrows Hsep].
  split; [exact Hrows |]. apply consensus_of_separated, Hsep.
Qed.

End EndToEnd.

Lemma upload_answer_in_range_witness :
  exists st' rows average total,
    upload_files (cv := Fixture.cv_band 0 1) (rosa := Fixture.rosa)
      (wz := Fixture.wz) (Fixture.clock_at "t_")
      (Some [Fixture.file_of "a.wav" 13; Fixture.file_of "b.wav" 13])
      initial_state
    = (st', Uploaded rows average total)
    /\ 4.5 <= fst average /\ fst average < snd average /\ snd average <= 7.5.
Proof.
  do 4 eexists. split; [vm_compute; reflexivity |].
  eapply (upload_answer_in_range (cv := Fixture.cv_band 0 1)
            (rosa := Fixture.rosa) (wz := Fixture.wz) (Fixture.clock_at "t_")
            (Some [Fixture.file_of "a.wav" 13; Fixture.file_of "b.wav" 13])
            initial_state).
  vm_compute. reflexivity.
Defined.

Section BatchSplitF64.

Context `{cv : OpenCV} `{codec : Codec} `{rosa : Librosa} `{wz : Werkzeug}.

(** When the splitter gives the same answer on every entry, the loop
    files every name on the same list. *)
Lemma split_loop_f64_uniform (disk : gmap string bytes)
    (start_time end_time : float) (output_dir : string)
    (entries : dict file_data) (success : bool) :
  forall (o : outputs) (processed_files failed_files : list string),
    (forall k fd o, In (k, fd) entries ->
        snd (F64.crop_and_split_audio disk (file_path fd) start_time end_time
               output_dir (filename fd) o) = success) ->
    let names := map (fun kv => filename (snd kv)) entries in
    snd (fst (F64.split_loop disk start_time end_time output_dir entries o
                processed_files failed_files))
    = processed_files ++ (if success then names else [])
    /\ snd (F64.split_loop disk start_time end_time output_dir entries o
              processed_files failed_files)
       = failed_files ++ (if success then [] else names).
Proof.
  induction entries as [| [k fd] rest IH]; intros o p f Hall; cbv zeta.
  - cbn. destruct success; rewrite !app_nil_r; auto.
  - cbn [F64.split_loop].
    pose proof (Hall k fd o (or_introl eq_refl)) as H.
    destruct (F64.crop_and_split_audio _ _ _ _ _ _ _) as [o' success'].
    cbn [snd] in H. subst success'.
    assert (Hrest : forall k' fd' o'', In (k', fd') rest ->
               snd (F64.crop_and_split_audio disk (file_path fd') start_time
                      end_time output_dir (filename fd') o'') = success).
    { intros k' fd' o'' Hin. apply (Hall k' fd' o''). right. exact Hin. }
    destruct success.
    + destruct (IH o' (p ++ [filename fd]) f Hrest) as [H1 H2].
      cbv zeta in H1, H2. rewrite H1, H2.
      cbn [map snd]. rewrite <- app_assoc. auto.
    + destruct (IH o' p (f ++ [filename fd]) Hrest) as [H1 H2].
      cbv zeta in H1, H2. rewrite H1, H2.
      cbn [map snd]. rewrite <- app_assoc. auto.
Qed.

(** X22: with a codec that decodes every file and exports that succeed,
    after any sequence of uploads and splits, a batch split whose two
    bounds convert to non-negative milliseconds counts every file of
    the batch as processed and none as failed, whether or not the
    interval is a valid one (start before end, within the recordings);
    a batch split with a bound whose conversion raises (a product with
    1000 that is infinite, or not a number) counts every file as
    failed and none as processed. *)
Theorem working_codec_processes_every_file (history : list request)
    (timestamp : string) (start_time end_time : float) :
  (forall b, exists audio, from_mp3 b = Ok audio) ->
  (forall b, exists audio, from_wav b = Ok audio) ->
  (forall seg path, export_wav seg path = Ok tt) ->
  let st := run initial_state history in
  let answer :=
    snd (F64.process_batch timestamp (Some (start_time, end_time)) st) in
  let zip_filename := ("processed_audio_" ++ timestamp ++ ".zip")%string in
  (forall start_ms end_ms,
      F64.ms start_time = Ok start_ms -> F64.ms end_time = Ok end_ms ->
      (0 <= start_ms)%Z -> (0 <= end_ms)%Z ->
      answer = Processed zip_filename (length (batch_data st)) 0)
  /\ ((exists e, F64.ms start_time = Raise e)
      \/ (exists e, F64.ms end_time = Raise e) ->
      answer = Processed zip_filename 0 (length (batch_data st))).
Proof.
  intros Hmp3 Hwav Hexport st answer zip_filename.
  assert (Hst : consistent st).
  { apply run_consistent. unfold consistent, initial_state. cbn.
    split; [reflexivity |]. split; [constructor | intros k' fd' []]. }
  destruct Hst as (_ & _ & Hentries).
  assert (Hcount : forall success,
             (forall k fd o, In (k, fd) (batch_data st) ->
                 snd (F64.crop_and_split_audio (upload_folder st) (file_path fd)
                        start_time end_time
                        (path_join OUTPUT_FOLDER ("batch_" ++ timestamp))
                        (filename fd) o) = success) ->
             answer
             = Processed zip_filename
                 (if success then length (batch_data st) else 0)
                 (if success then 0 else length (batch_data st))).
  { intros success Hall. subst answer. unfold F64.process_batch.
    destruct (split_loop_f64_uniform (upload_folder st) start_time end_time
                (path_join OUTPUT_FOLDER ("batch_" ++ timestamp))
                (batch_data st) success no_outputs [] [] Hall) as [H1 H2].
    destruct (F64.split_loop _ _ _ _ _ _ _ _) as [[o p] f].
    cbn [fst snd] in H1, H2. subst p f.
    cbn [snd app]. destruct success; cbn [length]; rewrite length_map;
      reflexivity. }
  split.
  - intros start_ms end_ms Hs He Hs0 He0. apply (Hcount true).
    intros k fd o Hin.
    destruct (Hentries k fd Hin) as (_ & _ & [content Hcontent]).
    assert (Hload : exists audio,
               load_audio (upload_folder st) (file_path fd) = Ok audio).
    { rewrite (load_audio_present _ _ _ Hcontent).
      destruct (endswith (file_path fd) ".mp3"); auto. }
    destruct Hload as [audio Hload].
    pose proof (crop_f64_success (upload_folder st) (file_path fd) start_time
                  end_time (path_join OUTPUT_FOLDER ("batch_" ++ timestamp))
                  (filename fd) o audio start_ms end_ms
                  Hload Hexport Hs He Hs0 He0) as Hcrop.
    cbv zeta in Hcrop. rewrite Hcrop. reflexivity.
  - intros Hraise. apply (Hcount false).
    intros k fd o Hin.
    rewrite crop_f64_conversion_failure by exact Hraise. reflexivity.
Qed.

End BatchSplitF64.

(** Two recordings are uploaded; the split at (7.0, 5.0) processes
    both, the split at (7.0, 2^1020) fails on both. *)
Lemma working_codec_processes_every_file_witness :
  let st :=
    run (cv := Fixture.cv_flat) (codec := codec_reads_anything)
      (rosa := Fixture.rosa) (wz := Fixture.wz) initial_state
      [Upload (Fixture.clock_at "t0_")
         (Some [Fixture.file_of "a.wav" 13; Fixture.file_of "b.mp3" 13])] in
  snd (F64.process_batch (codec := codec_reads_anything) "t1" (Some (7, 5)%float) st)
  = Processed "processed_audio_t1.zip" 2 0
  /\ snd (F64.process_batch (codec := codec_reads_anything) "t1"
            (Some (7, 0x1p+1020)%float) st)
     = Processed "processed_audio_t1.zip" 0 2.
Proof.
  cbv zeta. split.
  - refine (proj1 (working_codec_processes_every_file (cv := Fixture.cv_flat)
                     (codec := codec_reads_anything) (rosa := Fixture.rosa)
                     (wz := Fixture.wz)
                     [Upload (Fixture.clock_at "t0_")
                        (Some [Fixture.file_of "a.wav" 13;
                               Fixture.file_of "b.mp3" 13])]
                     "t1" 7 5 _ _ _) 7000%Z 5000%Z eq_refl eq_refl _ _).
    + intros b. eexists. reflexivity.
    + intros b. eexists. reflexivity.
    + reflexivity.
    + lia.
    + lia.
  - refine (proj2 (working_codec_processes_every_file (cv := Fixture.cv_flat)
                     (codec := codec_reads_anything) (rosa := Fixture.rosa)
                     (wz := Fixture.wz)
                     [Upload (Fixture.clock_at "t0_")
                        (Some [Fixture.file_of "a.wav" 13;
                               Fixture.file_of "b.mp3" 13])]
                     "t1" 7 0x1p+1020 _ _ _) _).
    + intros b. eexists. reflexivity.
    + intros b. eexists. reflexivity.
    + reflexivity.
    + right. exists OverflowError. reflexivity.
Defined.
